(** * claircore: the dpkg package scanner and the Ubuntu distribution scanner

    A shallow embedding of [dpkg/scanner.go] and
    [ubuntu/distributionscanner.go], with the properties of the two [Scan]
    methods that the specification states.

    Go strings and byte slices are byte sequences; both are [string] here.
    Go maps are [gmap]s, and a [range] over a map is an iteration over some
    permutation of its entries, since the language leaves the order open. *)

From Stdlib Require Import ZArith Ascii String List.
From stdpp Require Import base option list strings gmap fin_maps.

Open Scope string_scope.
Open Scope list_scope.

(** ** The parts of the Go standard library the scanners call *)

Module Go.

(** Go's [error] values as the scanners build and inspect them: the sentinel
    [io.EOF], [errors.New], and [fmt.Errorf("...: %w", err)], whose operand
    may be a nil error. A nil [error] is [None : option error]. *)
Inductive error : Type :=
  | EOF
  | errorString (msg : string)
  | wrapError (msg : string) (inner : option_error)
with option_error : Type :=
  | nilErr
  | someErr (e : error).

(** [err == io.EOF]: identity with the sentinel. *)
Definition is_EOF (e : error) : bool :=
  match e with EOF => true | _ => false end.

(** [errors.Is(err, io.EOF)]: the sentinel somewhere on the Unwrap chain. *)
Fixpoint errors_Is_EOF (e : error) : bool :=
  match e with
  | EOF => true
  | errorString _ => false
  | wrapError _ nilErr => false
  | wrapError _ (someErr e') => errors_Is_EOF e'
  end.

(** [fmt.Errorf(msg + ": %w", err)]. *)
Definition Errorf (msg : string) (err : option error) : error :=
  wrapError msg (match err with None => nilErr | Some e => someErr e end).

(** A Go slice is nil or a (possibly empty) sequence. *)
Definition slice (A : Type) : Type := option (list A).

(** The slice a [var s []T] holds after the appends that built [l]:
    nil when nothing was appended. *)
Definition appended {A} (l : list A) : slice A :=
  match l with [] => None | _ => Some l end.

(** *** package strings *)

Fixpoint HasPrefix (s prefix : string) : bool :=
  match prefix, s with
  | EmptyString, _ => true
  | String p prefix', String c s' => if Ascii.eqb c p then HasPrefix s' prefix' else false
  | String _ _, EmptyString => false
  end.

Fixpoint drop_bytes (n : nat) (s : string) : string :=
  match n, s with
  | O, _ => s
  | S n', String _ s' => drop_bytes n' s'
  | S _, EmptyString => EmptyString
  end.

Fixpoint take_bytes (n : nat) (s : string) : string :=
  match n, s with
  | O, _ => EmptyString
  | S n', String c s' => String c (take_bytes n' s')
  | S _, EmptyString => EmptyString
  end.

Definition HasSuffix (s suffix : string) : bool :=
  (String.length suffix <=? String.length s)%nat
  && String.eqb (drop_bytes (String.length s - String.length suffix) s) suffix.

Definition TrimSuffix (s suffix : string) : string :=
  if HasSuffix s suffix
  then take_bytes (String.length s - String.length suffix) s
  else s.

(** [strings.IndexRune(s, c)] for an ASCII [c]: the index of its first
    byte, [None] for Go's -1. *)
Fixpoint IndexRune (s : string) (c : ascii) : option nat :=
  match s with
  | EmptyString => None
  | String d s' => if Ascii.eqb d c then Some O else S <$> IndexRune s' c
  end.

(** *** package path/filepath, on a system whose separator is the slash *)

Definition Separator : ascii := "/"%char.

(** The elements of a path between separators, empty ones included. *)
Fixpoint split_sep (s : string) : list string :=
  match s with
  | EmptyString => [EmptyString]
  | String c s' =>
      if Ascii.eqb c Separator then EmptyString :: split_sep s'
      else match split_sep s' with
           | [] => [String c EmptyString]
           | e :: es => String c e :: es
           end
  end.

Fixpoint join_sep (es : list string) : string :=
  match es with
  | [] => EmptyString
  | [e] => e
  | e :: es' => e +:+ String Separator (join_sep es')
  end.

(** One element of [Clean]'s scan. [out] holds the elements written so far,
    last one first; [dotdot] counts the leading ".." elements that can no
    longer be removed. *)
Definition clean_elem (rooted : bool) (st : list string * nat) (e : string)
  : list string * nat :=
  let '(out, dotdot) := st in
  if String.eqb e "" || String.eqb e "." then st
  else if String.eqb e ".." then
    match out with
    | _ :: out' => (out', dotdot)
    | [] => if rooted then st else (out, S dotdot)
    end
  else (e :: out, dotdot).

(** [filepath.Clean]: drop empty and "." elements, resolve inner ".."
    elements, keep a leading separator, and turn the empty result into ".". *)
Definition Clean (path : string) : string :=
  match path with
  | EmptyString => "."
  | String c _ =>
      let rooted := Ascii.eqb c Separator in
      let '(out, dotdot) := fold_left (clean_elem rooted) (split_sep path) ([], O) in
      let body := join_sep (repeat ".." dotdot ++ rev out) in
      if rooted then String Separator body
      else if String.eqb body "" then "." else body
  end.

(** The bytes of [s] up to and including its last separator. *)
Fixpoint upto_last_sep (s : string) : string :=
  match s with
  | EmptyString => EmptyString
  | String c s' =>
      match upto_last_sep s' with
      | EmptyString => if Ascii.eqb c Separator then String c EmptyString else EmptyString
      | r => String c r
      end
  end.

(** [filepath.Dir]: all but the last element, cleaned. *)
Definition Dir (path : string) : string := Clean (upto_last_sep path).

(** [s] without its trailing separators. *)
Fixpoint strip_trailing_sep (s : string) : string :=
  match s with
  | EmptyString => EmptyString
  | String c s' =>
      match strip_trailing_sep s' with
      | EmptyString => if Ascii.eqb c Separator then EmptyString else String c EmptyString
      | r => String c r
      end
  end.

(** The bytes of [s] after its last separator. *)
Fixpoint after_last_sep (s : string) : string :=
  match s with
  | EmptyString => EmptyString
  | String c s' =>
      if existsb (Ascii.eqb Separator) (list_ascii_of_string s') then after_last_sep s'
      else if Ascii.eqb c Separator then s' else s
  end.

(** [filepath.Base]: the last element; "." for the empty path and the
    separator for a path of separators only. *)
Definition Base (path : string) : string :=
  match path with
  | EmptyString => "."
  | _ =>
      match after_last_sep (strip_trailing_sep path) with
      | EmptyString => String Separator EmptyString
      | b => b
      end
  end.

(** [filepath.Join]: the elements from the first non-empty one on, joined
    by separators and cleaned. *)
Fixpoint Join (elem : list string) : string :=
  match elem with
  | [] => EmptyString
  | e :: rest =>
      if String.eqb e "" then Join rest else Clean (join_sep elem)
  end.

(** *** package encoding/hex *)

Definition hex_digit (n : N) : ascii :=
  if (n <? 10)%N then ascii_of_N (48 + n) else ascii_of_N (87 + n).

(** [hex.EncodeToString]: two lower-case digits per byte. *)
Fixpoint EncodeToString (bs : string) : string :=
  match bs with
  | EmptyString => EmptyString
  | String b bs' =>
      let n := N_of_ascii b in
      String (hex_digit (n / 16)) (String (hex_digit (n mod 16)) (EncodeToString bs'))
  end.

End Go.

(** ** archive/tar: what a [tar.Reader] yields *)

Module Tar.

Record Header := { Name : string; Typeflag : ascii }.

Definition TypeReg : ascii := "0"%char.

(** An archive member: its header, the bytes a read of its body delivers,
    and the error (if any) that read ends with. *)
Record Entry := { Hdr : Header; Data : string; DataErr : option Go.error }.

(** The stream a reader walks: [Next] returns the headers of [Entries] in
    order and then the error [End], which is [io.EOF] for a complete
    archive. The bytes do not change, so every pass sees the same stream. *)
Record Archive := { Entries : list Entry; End : Go.error }.

End Tar.

(** ** package claircore: the types the scanners exchange *)

Module Claircore.

Inductive PackageKind := BINARY | SOURCE.

(** Modelled from the spec: the declaration of [claircore.Package] is not
    among the sources; section 3 gives its fields. [Source] is the optional
    reference to a SOURCE package, nil when [None]. *)
#[warnings="-register-all"]
Inductive Package := mkPackage {
  Name : string;
  Version : string;
  Kind : PackageKind;
  Source : option Package;
  PackageDB : string;
  RepositoryHint : string;
  Arch : string
}.

Definition set_RepositoryHint (h : string) (p : Package) : Package :=
  mkPackage (Name p) (Version p) (Kind p) (Source p) (PackageDB p) h (Arch p).

(** The value [rd] that [Layer.Reader] hands out: the archive it reads, and
    the result [(n, err)] of [Seek(0, io.SeekStart)] when it implements
    [io.ReadSeeker] ([None] when the type assertion fails). *)
Record ReadCloser := {
  Stream : Tar.Archive;
  Seek : option (Z * option Go.error)
}.

(** Modelled from the spec: [claircore.Layer] is not among the sources;
    section 3 describes it as a content hash and an archive stream, and
    [Reader] returns the stream or an error. *)
Record Layer := { Hash : string; Reader : Go.error + ReadCloser }.

(** The error [Files] signals "none of the paths is there" with. *)
Definition ErrNotFound : Go.error :=
  Go.errorString "claircore: unable to find any requested files".

(** The first member stored under the cleaned name [p]. *)
Definition member (a : Tar.Archive) (p : string) : option Tar.Entry :=
  List.find (fun e => String.eqb (Go.Clean (Tar.Name (Tar.Hdr e))) p) (Tar.Entries a).

(** Modelled from the spec: [Layer.Files] is not among the sources. By
    section 4.1 it returns a mapping from path to content, or absent, and
    fails on an unreadable archive. A requested path that is not in the
    layer has no key in the map. When none of the requested paths is in
    the layer the result is absent, and absent reaches the caller as a
    non-nil error: section 4.3 has the probe give absent "if none exist",
    and [DistributionScanner.Scan] returns (nil, nil) on its error branch
    only, whose log line reads "didn't find an os-release or lsb release
    file". *)
Definition Files (l : Layer) (paths : list string) : gmap string string * option Go.error :=
  match Reader l with
  | inl e => (∅, Some e)
  | inr rd =>
      if Go.is_EOF (Tar.End (Stream rd)) then
        let f := foldr (fun p (f : gmap string string) =>
                          match member (Stream rd) (Go.Clean p) with
                          | Some e => <[Go.Clean p := Tar.Data e]> f
                          | None => f
                          end) ∅ paths in
        if decide (f = ∅) then (∅, Some ErrNotFound) else (f, None)
      else (∅, Some (Tar.End (Stream rd)))
  end.

(** The content of the file stored under [path] in the layer, if the layer
    has one. *)
Definition content (l : Layer) (path : string) : option string :=
  match Reader l with
  | inl _ => None
  | inr rd => Tar.Data <$> member (Stream rd) (Go.Clean path)
  end.

End Claircore.

(** ** github.com/tadasv/go-dpkg: the record its parser returns *)

Module GoDpkg.

(** The fields of [dpkg.Package] that the scanner reads. *)
Record ParsedPackage := {
  Package : string;
  Version : string;
  Architecture : string;
  Source : string
}.

End GoDpkg.

(** ** package dpkg: [Scanner.Scan] *)

Module Dpkg.

Import Go.

Definition name := "dpkg".
Definition kind := "package".
Definition version := "v0.0.2".

(** What a call of [Scan] ends with: its two results, or a panic. *)
Inductive Outcome :=
  | Return (pkgs : slice Claircore.Package) (err : option error)
  | Panic (msg : string).

(** One iteration of the loop over the confirmed directories either goes on
    to the next directory with the packages so far or leaves [Scan]. *)
Inductive Step :=
  | Continue (pkgs : list Claircore.Package)
  | Leave (o : Outcome).

Section Scanner.

(** [dpkg.NewParser(db).Parse()] of the go-dpkg library, on the bytes read
    from [db]. *)
Variable Parse : string -> list GoDpkg.ParsedPackage.

(** [md5.New()], [io.Copy] and [hash.Sum(nil)]: the digest of the bytes. *)
Variable md5_Sum : string -> string.

(** The order in which [range loc] visits the entries of the map. *)
Variable range : gmap string nat -> list (string * nat).

(** The body of the [Find] loop for one header: count a regular file named
    "status" or "available" under its directory. A missing key reads 0. *)
Definition count_header (loc : gmap string nat) (h : Tar.Header) : gmap string nat :=
  let b := Base (Tar.Name h) in
  if String.eqb b "status" || String.eqb b "available" then
    if Ascii.eqb (Tar.Typeflag h) Tar.TypeReg
    then <[Dir (Tar.Name h) := S (default O (loc !! Dir (Tar.Name h)))]> loc
    else loc
  else loc.

(** The [Find] loop over the whole stream. *)
Definition find_databases (es : list Tar.Entry) : gmap string nat :=
  fold_left (fun loc e => count_header loc (Tar.Hdr e)) es ∅.

(** The search for the "status" file: the values of [db] (the member the
    reader stands at, nil when [None]) and [err] when the loop is left. *)
Fixpoint search_status (fn : string) (es : list Tar.Entry) (fin : error)
  : option Tar.Entry * option error :=
  match es with
  | [] => (None, Some fin)
  | e :: es' =>
      if String.eqb (Clean (Tar.Name (Tar.Hdr e))) fn then (Some e, None)
      else search_status fn es' fin
  end.

(** The package built from one parsed stanza. *)
Definition to_package (fn : string) (pkg : GoDpkg.ParsedPackage) : Claircore.Package :=
  Claircore.mkPackage
    (GoDpkg.Package pkg) (GoDpkg.Version pkg) Claircore.BINARY
    (if String.eqb (GoDpkg.Source pkg) "" then None
     else Some (Claircore.mkPackage (GoDpkg.Source pkg) (GoDpkg.Version pkg)
                  Claircore.SOURCE None fn "" ""))
    fn "" (GoDpkg.Architecture pkg).

(** The loop over the parsed stanzas. [pkgs] is the slice of pointers; a
    pointer is the position of its package in [pkgs], and [found] maps a
    name to the pointer stored last under it. *)
Definition add_package (fn : string)
    (st : gmap string nat * list Claircore.Package) (pkg : GoDpkg.ParsedPackage)
  : gmap string nat * list Claircore.Package :=
  let '(found, pkgs) := st in
  let p := to_package fn pkg in
  (<[Claircore.Name p := length pkgs]> found, pkgs ++ [p]).

Definition suffix := ".md5sums".

(** The package name a metadata file is looked up under. *)
Definition metadata_name (hname : string) : string :=
  let n := TrimSuffix (Base hname) suffix in
  match IndexRune n ":"%char with
  | Some i => take_bytes i n
  | None => n
  end.

(** The body of the metadata loop for one member. *)
Definition add_hint (prefix : string) (found : gmap string nat)
    (pkgs : list Claircore.Package) (e : Tar.Entry) : list Claircore.Package :=
  let hname := Tar.Name (Tar.Hdr e) in
  if negb (HasPrefix hname prefix) || negb (HasSuffix hname suffix) then pkgs
  else
    match found !! metadata_name hname with
    | None => pkgs
    | Some p =>
        match Tar.DataErr e with
        | Some _ => pkgs
        | None =>
            alter (Claircore.set_RepositoryHint (EncodeToString (md5_Sum (Tar.Data e)))) p pkgs
        end
    end.

Definition seek_failed (res : Z * option error) : bool :=
  negb (Z.eqb (fst res) 0) || bool_decide (snd res ≠ None).

(** The body of the loop over [loc] for a directory [p] whose score is 2. *)
Definition scan_database (a : Tar.Archive) (seek : Z * option error)
    (p : string) (pkgs : list Claircore.Package) : Step :=
  if seek_failed seek then
    Leave (Return None (Some (Errorf "unable to seek reader" (snd seek))))
  else
    let fn := Join [p; "status"] in
    match search_status fn (Tar.Entries a) (Tar.End a) with
    | (_, Some err) =>
        if errors_Is_EOF err then Leave (Return None None)
        else Leave (Return None (Some (Errorf "reading status file from layer failed" (Some err))))
    | (None, None) => Leave (Panic "file existed, but now doesn't")
    | (Some db, None) =>
        let parsed := fold_left (add_package fn) (Parse (Tar.Data db)) (∅, pkgs) in
        if seek_failed seek then
          Leave (Return None (Some (Errorf "resetting tar reader failed" (snd seek))))
        else
          let prefix := Join [p; "info"] +:+ String Separator EmptyString in
          Continue (fold_left (add_hint prefix parsed.1) (Tar.Entries a) parsed.2)
    end.

(** The loop over [loc], in the order the runtime ranges over it. *)
Fixpoint scan_databases (a : Tar.Archive) (seek : Z * option error)
    (order : list (string * nat)) (pkgs : list Claircore.Package) : Outcome :=
  match order with
  | [] => Return (appended pkgs) None
  | (p, x) :: order' =>
      if negb (Nat.eqb x 2) then scan_databases a seek order' pkgs
      else
        match scan_database a seek p pkgs with
        | Leave o => o
        | Continue pkgs' => scan_databases a seek order' pkgs'
        end
  end.

Definition Scan (layer : Claircore.Layer) : Outcome :=
  match Claircore.Reader layer with
  | inl err => Return None (Some (Errorf "opening layer failed" (Some err)))
  | inr rd =>
      match Claircore.Seek rd with
      | None =>
          Return None (Some (Errorf "opening layer failed"
                               (Some (errorString "unable to coerce to io.Seeker"))))
      | Some seek =>
          let a := Claircore.Stream rd in
          if is_EOF (Tar.End a) then
            scan_databases a seek (range (find_databases (Tar.Entries a))) []
          else Return None (Some (Errorf "reading next header failed" (Some (Tar.End a))))
      end
  end.

End Scanner.

(** *** Notions the properties of the locate pass are stated with *)

(** A member the [Find] loop counts: a regular file whose base name is
    "status" or "available". *)
Definition counted (e : Tar.Entry) : bool :=
  let b := Base (Tar.Name (Tar.Hdr e)) in
  (String.eqb b "status" || String.eqb b "available")
  && Ascii.eqb (Tar.Typeflag (Tar.Hdr e)) Tar.TypeReg.

(** The directory and the base name of a member. *)
Definition place (e : Tar.Entry) : string * string :=
  (Dir (Tar.Name (Tar.Hdr e)), Base (Tar.Name (Tar.Hdr e))).

(** The score of a directory: how many counted members lie in it, each
    occurrence of a repeated member included. *)
Definition score (es : list Tar.Entry) (p : string) : nat :=
  length (List.filter (fun e => counted e && String.eqb (place e).1 p) es).

(** Two packages that differ at most in their [RepositoryHint]. *)
Definition same_but_hint (p q : Claircore.Package) : Prop :=
  Claircore.set_RepositoryHint "" p = Claircore.set_RepositoryHint "" q.

(** The member the extract pass reads the database of [p] from, if the
    search finds one. *)
Definition status_member (a : Tar.Archive) (p : string) : option Tar.Entry :=
  (search_status (Join [p; "status"]) (Tar.Entries a) (Tar.End a)).1.

Section Stanzas.

Variable Parse : string -> list GoDpkg.ParsedPackage.



End Stanzas.



End Dpkg.

(** ** package regexp, for the patterns of the Ubuntu scanner *)

Module Regexp.

(** The compiled pattern [(?is)\b<keyword>\b.*\b<codename>\b]: two literal
    words matched without regard to case, each between word boundaries,
    with any bytes (newlines too) between them. *)
Record Regexp := { keyword : string; codename : string }.

(** The ASCII word characters of [\b]: digits, letters and the underscore;
    a byte above 127 is none. *)
Definition is_word (c : ascii) : bool :=
  let n := nat_of_ascii c in
  ((48 <=? n) && (n <=? 57) || (65 <=? n) && (n <=? 90)
   || (97 <=? n) && (n <=? 122) || (n =? 95))%nat.

Definition to_lower (c : ascii) : ascii :=
  let n := nat_of_ascii c in
  if ((65 <=? n) && (n <=? 90))%nat then ascii_of_nat (n + 32) else c.

(** [\b] between the byte before and the text after: exactly one side is
    a word character; beyond either end of the text counts as none. *)
Definition boundary (prev : option ascii) (s : string) : bool :=
  xorb (match prev with Some c => is_word c | None => false end)
       (match s with String c _ => is_word c | EmptyString => false end).

(** A literal under [(?i)] at the head of [s]: a pattern letter matches
    itself in either case, and the letter s also matches the long s U+017F
    (its simple case fold), encoded as the bytes C5 BF. The result is the
    last byte consumed and the rest of the text. *)
Fixpoint literal (w : string) (prev : option ascii) (s : string)
  : option (option ascii * string) :=
  match w with
  | EmptyString => Some (prev, s)
  | String p w' =>
      match s with
      | EmptyString => None
      | String c s' =>
          if Ascii.eqb (to_lower c) (to_lower p) then literal w' (Some c) s'
          else if Ascii.eqb (to_lower p) "s"%char && Ascii.eqb c (ascii_of_nat 197) then
            match s' with
            | String d s'' =>
                if Ascii.eqb d (ascii_of_nat 191) then literal w' (Some d) s'' else None
            | EmptyString => None
            end
          else None
      end
  end.

(** [\b<w>\b] at the head of [s]. *)
Definition bounded_word (w : string) (prev : option ascii) (s : string)
  : option (option ascii * string) :=
  if boundary prev s then
    match literal w prev s with
    | Some (prev', rest) => if boundary prev' rest then Some (prev', rest) else None
    | None => None
    end
  else None.

(** [f] holds at the head of [s] or of one of its suffixes. *)
Fixpoint somewhere (f : option ascii -> string -> bool) (prev : option ascii) (s : string)
  : bool :=
  f prev s ||
  match s with
  | EmptyString => false
  | String c s' => somewhere f (Some c) s'
  end.

(** [re.Match(b)]: the pattern matches somewhere in [b]. *)
Definition Match (re : Regexp) (b : string) : bool :=
  somewhere
    (fun prev s =>
       match bounded_word (keyword re) prev s with
       | Some (prev', rest) =>
           somewhere (fun p t => bool_decide (is_Some (bounded_word (codename re) p t)))
                     prev' rest
       | None => false
       end)
    None b.

End Regexp.

(** ** package ubuntu: [DistributionScanner.Scan] *)

Module Ubuntu.

Import Go.

Definition scannerName := "ubuntu".
Definition scannerVersion := "v0.0.1".
Definition scannerKind := "distribution".

(** The releases the signature table names. *)
Inductive Release :=
  | Artful | Bionic | Cosmic | Disco | Precise
  | Trusty | Xenial | Eoan | Focal | Impish.

(** Modelled from the spec: [claircore.Distribution] and [releaseToDist]
    are not among the sources. Section 3 describes a distribution as the
    classification of a layer's base system, identified by its release;
    [releaseToDist] gives the (non-nil) distribution of a release. *)
Record Distribution := { dist_release : Release }.

Definition releaseToDist (r : Release) : Distribution := {| dist_release := r |}.

Record ubuntuRegex := { release : Release; regexp : Regexp.Regexp }.

Definition signature (r : Release) (codename : string) : ubuntuRegex :=
  {| release := r; regexp := {| Regexp.keyword := "ubuntu"; Regexp.codename := codename |} |}.

Definition ubuntuRegexes : list ubuntuRegex :=
  [ signature Artful "artful";
    signature Bionic "bionic";
    signature Cosmic "cosmic";
    signature Disco "disco";
    signature Precise "precise";
    signature Trusty "trusty";
    signature Xenial "xenial";
    signature Eoan "eoan";
    signature Focal "focal";
    signature Impish "impish" ].

Definition osReleasePath := "etc/os-release".
Definition lsbReleasePath := "etc/lsb-release".

(** The loop of [parse] over a list of signatures. *)
Fixpoint first_match (rs : list ubuntuRegex) (buff : string) : option Distribution :=
  match rs with
  | [] => None
  | ur :: rs' =>
      if Regexp.Match (regexp ur) buff then Some (releaseToDist (release ur))
      else first_match rs' buff
  end.

(** [parse]: the distribution of the first signature that matches, nil
    ([None]) when none does. *)
Definition parse (buff : string) : option Distribution :=
  first_match ubuntuRegexes buff.

(** The loop of [Scan] over the files, in the order they are visited. *)
Fixpoint scan_files (files : list (string * string))
  : slice Distribution * option error :=
  match files with
  | [] => (Some [], None)
  | (_, buff) :: files' =>
      match parse buff with
      | Some dist => (Some [dist], None)
      | None => scan_files files'
      end
  end.

Section Scanner.

(** The order in which [range files] visits the entries of the map. *)
Variable range : gmap string string -> list (string * string).

Definition Scan (l : Claircore.Layer) : slice Distribution * option error :=
  match Claircore.Files l [osReleasePath; lsbReleasePath] with
  | (_, Some _) => (None, None)
  | (files, None) => scan_files (range files)
  end.

End Scanner.

End Ubuntu.

(** ** Layers for the examples *)

Module Examples.

Import Go.

Definition file (name data : string) : Tar.Entry :=
  {| Tar.Hdr := {| Tar.Name := name; Tar.Typeflag := Tar.TypeReg |};
     Tar.Data := data; Tar.DataErr := None |}.

(** A layer over a complete archive whose reader can be rewound. *)
Definition layer_of (es : list Tar.Entry) : Claircore.Layer :=
  {| Claircore.Hash := "sha256:0";
     Claircore.Reader :=
       inr {| Claircore.Stream := {| Tar.Entries := es; Tar.End := EOF |};
              Claircore.Seek := Some (0%Z, None) |} |}.


Definition foo : GoDpkg.ParsedPackage :=
  {| GoDpkg.Package := "foo"; GoDpkg.Version := "1.0";
     GoDpkg.Architecture := "amd64"; GoDpkg.Source := "" |}.

Definition foo_from_bar : GoDpkg.ParsedPackage :=
  {| GoDpkg.Package := "foo"; GoDpkg.Version := "1.0";
     GoDpkg.Architecture := "amd64"; GoDpkg.Source := "bar" |}.

Definition status_foo : string := "Package: foo
Version: 1.0
Architecture: amd64
".

Definition status_foo_from_bar : string := "Package: foo
Version: 1.0
Architecture: amd64
Source: bar
".

Definition md5sums_foo : string := "d41d8cd98f00b204e9800998ecf8427e  usr/bin/foo
".

(** A stand-in for the go-dpkg parser on the two status files used below. *)
Definition parse_example (db : string) : list GoDpkg.ParsedPackage :=
  if String.eqb db status_foo then [foo]
  else if String.eqb db status_foo_from_bar then [foo_from_bar]
  else [].

(** A layer with one dpkg database and the metadata file of its package. *)
Definition foo_members : list Tar.Entry :=
  [ file "var/lib/dpkg/status" status_foo;
    file "var/lib/dpkg/available" "";
    file "var/lib/dpkg/info/foo.md5sums" md5sums_foo ].

Definition foo_layer : Claircore.Layer := layer_of foo_members.

Definition foo_from_bar_members : list Tar.Entry :=
  [ file "var/lib/dpkg/status" status_foo_from_bar;
    file "var/lib/dpkg/available" "" ].

Definition foo_from_bar_layer : Claircore.Layer := layer_of foo_from_bar_members.

(** The members of [foo_layer], stored under names that start with "./",
    as an archive of the current directory has them. *)
Definition dot_slash_members : list Tar.Entry :=
  [ file "./var/lib/dpkg/status" status_foo;
    file "./var/lib/dpkg/available" "";
    file "./var/lib/dpkg/info/foo.md5sums" md5sums_foo ].

Definition dot_slash_layer : Claircore.Layer := layer_of dot_slash_members.


(** A layer whose two probe files name different releases. *)
Definition two_releases_layer : Claircore.Layer :=
  layer_of [ file "etc/os-release" "NAME=Ubuntu
VERSION_CODENAME=bionic
";
             file "etc/lsb-release" "DISTRIB_ID=Ubuntu
DISTRIB_CODENAME=xenial
" ].

(** A content that the signatures of Bionic and of Xenial both match. *)
Definition bionic_and_xenial : string := "Ubuntu bionic, formerly xenial".

Definition bionic_and_xenial_layer : Claircore.Layer :=
  layer_of [ file "etc/os-release" bionic_and_xenial ].

(** A layer whose two probe files name the same release. *)
Definition bionic_layer : Claircore.Layer :=
  layer_of [ file "etc/os-release" "NAME=Ubuntu
VERSION_CODENAME=bionic
";
             file "etc/lsb-release" "DISTRIB_ID=Ubuntu
DISTRIB_CODENAME=bionic
" ].



Definition unreadable_layer : Claircore.Layer :=
  {| Claircore.Hash := "sha256:1";
     Claircore.Reader := inl (errorString "open layer: no such file") |}.

(** A stand-in for the digest. *)
Definition digest_example (data : string) : string := data.

(** The two visiting orders of a map used below. *)
Definition in_order {V} (m : gmap string V) : list (string * V) := map_to_list m.
Definition in_reverse {V} (m : gmap string V) : list (string * V) := reverse (map_to_list m).

End Examples.

(** ** Notions for the results of the dpkg scanner *)

Module Results.

Import Go.

(** The shape of a package the scanner builds: BINARY, with either no
    Source or a SOURCE package that has the same version and database path
    and nothing else filled in. *)
Definition well_formed (pk : Claircore.Package) : Prop :=
  Claircore.Kind pk = Claircore.BINARY
  /\ match Claircore.Source pk with
     | None => True
     | Some src =>
         Claircore.Kind src = Claircore.SOURCE
         /\ Claircore.Name src <> ""
         /\ Claircore.Version src = Claircore.Version pk
         /\ Claircore.PackageDB src = Claircore.PackageDB pk
         /\ Claircore.Source src = None
         /\ Claircore.RepositoryHint src = ""
         /\ Claircore.Arch src = ""
     end.

(** [e] is a member whose digest the metadata loop stores in the package
    at position [i]: its name has the prefix and the suffix, [found] maps
    its package name to [i], and its body can be read. *)
Definition hint_source (prefix : string) (found : gmap string nat) (i : nat)
    (e : Tar.Entry) : bool :=
  HasPrefix (Tar.Name (Tar.Hdr e)) prefix
  && HasSuffix (Tar.Name (Tar.Hdr e)) Dpkg.suffix
  && bool_decide (found !! Dpkg.metadata_name (Tar.Name (Tar.Hdr e)) = Some i)
  && bool_decide (Tar.DataErr e = None).

Section PerDatabase.

Variable Parse : string -> list GoDpkg.ParsedPackage.
Variable md5_Sum : string -> string.



End PerDatabase.

(** Two outcomes that differ at most in the order of the packages. *)
Definition same_up_to_order (o1 o2 : Dpkg.Outcome) : Prop :=
  match o1, o2 with
  | Dpkg.Return (Some l1) e1, Dpkg.Return (Some l2) e2 => l1 ≡ₚ l2 /\ e1 = e2
  | Dpkg.Return None e1, Dpkg.Return None e2 => e1 = e2
  | _, _ => False
  end.

(** A reader that cannot be rewound, over the given members. *)
Definition layer_without_seek (es : list Tar.Entry) : Claircore.Layer :=
  {| Claircore.Hash := "sha256:2";
     Claircore.Reader :=
       inr {| Claircore.Stream := {| Tar.Entries := es; Tar.End := EOF |};
              Claircore.Seek := Some (0%Z, Some (errorString "seek: illegal seek")) |} |}.

(** A directory with a status file and no list of available packages. *)
Definition status_only : list Tar.Entry :=
  [ Examples.file "var/lib/dpkg/status" Examples.status_foo ].

(** A layer with two dpkg databases. *)
Definition two_databases : list Tar.Entry :=
  [ Examples.file "var/lib/dpkg/status" Examples.status_foo;
    Examples.file "var/lib/dpkg/available" "";
    Examples.file "opt/dpkg/available" "";
    Examples.file "opt/dpkg/status" Examples.status_foo_from_bar;
    Examples.file "var/lib/dpkg/info/foo.md5sums" Examples.md5sums_foo ].

Definition foo_metadata : Tar.Entry :=
  Examples.file "var/lib/dpkg/info/foo:amd64.md5sums" Examples.md5sums_foo.

(** A lower-case hexadecimal digit. *)
Definition is_hex_digit (c : ascii) : bool :=
  let n := nat_of_ascii c in
  ((48 <=? n) && (n <=? 57) || (97 <=? n) && (n <=? 102))%nat.

(** A text of hexadecimal digits, two for each of [n] bytes. *)
Definition hex_text (n : nat) (s : string) : Prop :=
  String.length s = 2 * n /\ Forall (fun c => is_hex_digit c = true) (list_ascii_of_string s).

(** The path starts with the separator. *)
Definition rooted (path : string) : bool :=
  match path with
  | String c _ => Ascii.eqb c Separator
  | EmptyString => false
  end.

(** The path [Clean] writes for the state its scan ends in. *)
Definition render (rooted : bool) (st : list string * nat) : string :=
  let body := join_sep (repeat ".." st.2 ++ rev st.1) in
  if rooted then String Separator body
  else if String.eqb body "" then "." else body.

(** A path element that [Clean] keeps as it is. *)
Definition real_elem (e : string) : Prop :=
  e <> "" /\ e <> "." /\ e <> ".." /\ Separator ∉ list_ascii_of_string e.

(** The state of [Clean]'s scan is in order: a rooted path has no leading
    ".." elements, and the elements written are kept ones. *)
Definition clean_state (rooted : bool) (st : list string * nat) : Prop :=
  (rooted = true -> st.2 = 0) /\ Forall real_elem st.1.

(** The text with its ASCII letters in lower case. *)
Fixpoint lower (s : string) : string :=
  match s with
  | EmptyString => EmptyString
  | String c s' => String (Regexp.to_lower c) (lower s')
  end.

(** The result of matching a literal, in lower case. *)
Definition lower_result (r : option (option ascii * string)) : option (option ascii * string) :=
  (fun pr : option ascii * string => (Regexp.to_lower <$> pr.1, lower pr.2)) <$> r.

(** The text starts with a word character. *)
Definition starts_word (s : string) : bool :=
  match s with
  | String c _ => Regexp.is_word c
  | EmptyString => false
  end.

(** The last byte of the text, [prev] for the empty text. *)
Fixpoint last_byte (prev : option ascii) (s : string) : option ascii :=
  match s with
  | EmptyString => prev
  | String c s' => last_byte (Some c) s'
  end.

(** The text ends with a word character. *)
Definition ends_word (s : string) : bool :=
  match last_byte None s with
  | Some c => Regexp.is_word c
  | None => false
  end.

End Results.

(** * Properties of the dpkg scanner *)

Section LocatePass.

Import Go.

Lemma count_header_lookup loc e p :
  default 0 (Dpkg.count_header loc (Tar.Hdr e) !! p)
  = default 0 (loc !! p)
    + (if Dpkg.counted e && String.eqb (Dpkg.place e).1 p then 1 else 0).
Proof.
  unfold Dpkg.count_header, Dpkg.counted, Dpkg.place. cbn [fst].
  destruct (_ || _); cbn [andb]; [| apply plus_n_O].
  destruct (Ascii.eqb _ _); [| apply plus_n_O].
  destruct (String.eqb_spec (Dir (Tar.Name (Tar.Hdr e))) p) as [-> | Hne].
  - rewrite lookup_insert_eq. simpl. apply eq_sym, Nat.add_1_r.
  - rewrite lookup_insert_ne by exact Hne. apply plus_n_O.
Qed.

Lemma count_header_is_Some loc e p :
  is_Some (Dpkg.count_header loc (Tar.Hdr e) !! p)
  <-> is_Some (loc !! p) \/ Dpkg.counted e && String.eqb (Dpkg.place e).1 p = true.
Proof.
  unfold Dpkg.count_header, Dpkg.counted, Dpkg.place. cbn [fst].
  destruct (_ || _); cbn [andb]; [| intuition discriminate].
  destruct (Ascii.eqb _ _); [| intuition discriminate].
  destruct (String.eqb_spec (Dir (Tar.Name (Tar.Hdr e))) p) as [-> | Hne].
  - rewrite lookup_insert_eq. intuition eauto.
  - rewrite lookup_insert_ne by exact Hne. intuition discriminate.
Qed.

Lemma find_loop_lookup es loc p :
  default 0 (fold_left (fun loc e => Dpkg.count_header loc (Tar.Hdr e)) es loc !! p)
  = default 0 (loc !! p) + Dpkg.score es p
  /\ (is_Some (fold_left (fun loc e => Dpkg.count_header loc (Tar.Hdr e)) es loc !! p)
      <-> is_Some (loc !! p) \/ 0 < Dpkg.score es p).
Proof.
  revert loc. induction es as [|e es IH]; intros loc.
  - unfold Dpkg.score. simpl. split; [apply plus_n_O | intuition lia].
  - destruct (IH (Dpkg.count_header loc (Tar.Hdr e))) as [IHn IHs].
    cbn [fold_left]. rewrite IHn, IHs, count_header_lookup, count_header_is_Some.
    generalize (default 0 (loc !! p)). intros k.
    unfold Dpkg.score. cbn [List.filter].
    destruct (Dpkg.counted e && String.eqb (Dpkg.place e).1 p); cbn [length].
    + split; [lia | intuition lia].
    + split; [lia | intuition (discriminate || lia)].
Qed.

(** The map of the locate pass holds, for every directory with a counted
    member, its score. *)
Lemma find_databases_score es p n :
  Dpkg.find_databases es !! p = Some n <-> Dpkg.score es p = n /\ 0 < n.
Proof.
  unfold Dpkg.find_databases.
  destruct (find_loop_lookup es ∅ p) as [Hn Hs].
  rewrite lookup_empty in Hn, Hs. simpl in Hn.
  split.
  - intros Hp. rewrite Hp in Hn, Hs. simpl in Hn.
    split; [lia |]. destruct Hs as [Hs _].
    destruct (Hs (mk_is_Some _ _ eq_refl)) as [[x Hx] | Hpos]; [discriminate | lia].
  - intros [<- Hpos]. destruct Hs as [_ Hs].
    destruct (Hs (or_intror Hpos)) as [x Hx]. rewrite Hx in Hn |- *.
    simpl in Hn. congruence.
Qed.






End LocatePass.

Section DpkgProperties.

Import Go.

Variable Parse : string -> list GoDpkg.ParsedPackage.
Variable md5_Sum : string -> string.
Variable range : gmap string nat -> list (string * nat).

(** A [range] visits every entry of the map once, in any order. *)
Hypothesis range_visits : forall m, range m ≡ₚ map_to_list m.

Abbreviation Scan := (Dpkg.Scan Parse md5_Sum range).
Abbreviation scan_database := (Dpkg.scan_database Parse md5_Sum).
Abbreviation scan_databases := (Dpkg.scan_databases Parse md5_Sum).

(** The search loop ends in one of two ways: at the end of the stream with
    its error and no member, or at a member of the wanted name with no
    error. *)
Lemma search_status_ends fn es fin :
  (Dpkg.search_status fn es fin = (None, Some fin)
   /\ Forall (fun e => Clean (Tar.Name (Tar.Hdr e)) <> fn) es)
  \/ (exists db, Dpkg.search_status fn es fin = (Some db, None)
                /\ db ∈ es /\ Clean (Tar.Name (Tar.Hdr db)) = fn).
Proof.
  induction es as [|e es IH]; simpl.
  - left. split; [reflexivity | constructor].
  - destruct (String.eqb_spec (Clean (Tar.Name (Tar.Hdr e))) fn) as [Heq | Hne].
    + right. exists e. split; [reflexivity | split; [left | exact Heq]].
    + destruct IH as [[Hs Hall] | (db & Hs & Hin & Hname)].
      * left. split; [exact Hs | constructor; assumption].
      * right. exists db. split; [exact Hs | split; [right; exact Hin | exact Hname]].
Qed.

Lemma seek_succeeded : Dpkg.seek_failed (0%Z, None) = false.
Proof. reflexivity. Qed.









Lemma confirmed_is_visited (loc : gmap string nat) p x :
  loc !! p = Some x -> (p, x) ∈ range loc.
Proof.
  intros Hp. rewrite range_visits. apply elem_of_map_to_list. exact Hp.
Qed.



(** *** The extract passes *)

Lemma scan_databases_none_confirmed a seek order pkgs :
  Forall (fun qx : string * nat => qx.2 <> 2) order ->
  scan_databases a seek order pkgs = Dpkg.Return (appended pkgs) None.
Proof.
  induction 1 as [|[q x] order Hx _ IH]; [reflexivity |].
  simpl in *. destruct (Nat.eqb_spec x 2); [contradiction | exact IH].
Qed.

Lemma scan_databases_one_confirmed a seek before p after pkgs :
  Forall (fun qx : string * nat => qx.2 <> 2) before ->
  Forall (fun qx : string * nat => qx.2 <> 2) after ->
  scan_databases a seek (before ++ (p, 2) :: after) pkgs
  = match scan_database a seek p pkgs with
    | Dpkg.Leave o => o
    | Dpkg.Continue pkgs' => Dpkg.Return (appended pkgs') None
    end.
Proof.
  intros Hbefore Hafter.
  induction Hbefore as [|[q x] before Hx _ IH].
  - simpl. destruct (scan_database a seek p pkgs); [| reflexivity].
    apply scan_databases_none_confirmed, Hafter.
  - simpl in *. destruct (Nat.eqb_spec x 2); [contradiction | exact IH].
Qed.

(** When one directory only is confirmed, the visiting order has it once,
    among directories that are skipped. *)
Lemma range_one_confirmed (loc : gmap string nat) p :
  loc !! p = Some 2 ->
  (forall q, loc !! q = Some 2 -> q = p) ->
  exists before after,
    range loc = (before ++ (p, 2) :: after)
    /\ Forall (fun qx : string * nat => qx.2 <> 2) before
    /\ Forall (fun qx : string * nat => qx.2 <> 2) after.
Proof.
  intros Hp Honly.
  destruct (list_elem_of_split _ _ (confirmed_is_visited _ _ _ Hp)) as (before & after & Hsplit).
  exists before, after. split; [exact Hsplit |].
  assert (Hnd : NoDup ((before ++ (p, 2) :: after).*1)).
  { rewrite <- Hsplit, range_visits. apply NoDup_fst_map_to_list. }
  rewrite fmap_app, fmap_cons in Hnd. cbn [fst] in Hnd.
  apply NoDup_app in Hnd as (_ & Hdisj & Hnd). apply NoDup_cons in Hnd as [Hnotin _].
  assert (Hin : forall q x, (q, x) ∈ range loc -> x = 2 -> q = p).
  { intros q x Hqx ->. apply Honly. apply elem_of_map_to_list.
    rewrite <- range_visits. exact Hqx. }
  split; apply Forall_forall; intros [q x] Hqx Hx; cbn [snd] in Hx.
  - assert (q = p) as -> by (apply (Hin q x); [rewrite Hsplit; set_solver | exact Hx]).
    apply (Hdisj p); [apply (list_elem_of_fmap_2 fst _ _ Hqx) | left].
  - assert (q = p) as -> by (apply (Hin q x); [rewrite Hsplit; set_solver | exact Hx]).
    apply Hnotin. apply (list_elem_of_fmap_2 fst _ _ Hqx).
Qed.

(** The packages of a layer with one confirmed directory whose status
    file is found: those of the stanzas, with the hints of the metadata
    pass. *)
Lemma Scan_one_database layer rd p db :
  Claircore.Reader layer = inr rd ->
  Claircore.Seek rd = Some (0%Z, None) ->
  Tar.End (Claircore.Stream rd) = EOF ->
  Dpkg.find_databases (Tar.Entries (Claircore.Stream rd)) !! p = Some 2 ->
  (forall q, Dpkg.find_databases (Tar.Entries (Claircore.Stream rd)) !! q = Some 2 -> q = p) ->
  Dpkg.search_status (Join [p; "status"])
    (Tar.Entries (Claircore.Stream rd)) (Tar.End (Claircore.Stream rd)) = (Some db, None) ->
  Scan layer
  = let parsed := fold_left (Dpkg.add_package (Join [p; "status"])) (Parse (Tar.Data db)) (∅, []) in
    Dpkg.Return
      (appended (fold_left (Dpkg.add_hint md5_Sum (Join [p; "info"] +:+ String Separator EmptyString) parsed.1)
                   (Tar.Entries (Claircore.Stream rd)) parsed.2))
      None.
Proof.
  intros Hrd Hseek Hend Hp Honly Hdb.
  unfold Dpkg.Scan. rewrite Hrd, Hseek, Hend. cbn [is_EOF].
  destruct (range_one_confirmed _ _ Hp Honly) as (before & after & -> & Hb & Ha).
  rewrite scan_databases_one_confirmed by assumption.
  unfold Dpkg.scan_database. rewrite seek_succeeded.
  rewrite Hend in Hdb. rewrite Hend, Hdb. reflexivity.
Qed.

Lemma add_packages_appends fn stanzas found pkgs :
  (fold_left (Dpkg.add_package fn) stanzas (found, pkgs)).2
  = pkgs ++ (Dpkg.to_package fn <$> stanzas).
Proof.
  revert found pkgs. induction stanzas as [|pkg stanzas IH]; intros found pkgs.
  - simpl. rewrite app_nil_r. reflexivity.
  - cbn [fold_left Dpkg.add_package]. rewrite IH, fmap_cons, <- app_assoc. reflexivity.
Qed.




Lemma status_member_found a p db :
  Dpkg.status_member a p = Some db ->
  Dpkg.search_status (Join [p; "status"]) (Tar.Entries a) (Tar.End a) = (Some db, None)
  /\ Clean (Tar.Name (Tar.Hdr db)) = Join [p; "status"].
Proof.
  unfold Dpkg.status_member.
  destruct (search_status_ends (Join [p; "status"]) (Tar.Entries a) (Tar.End a))
    as [[-> _] | (db' & -> & _ & Hname)]; [discriminate |].
  cbn [fst]. intros [= <-]. split; [reflexivity | exact Hname].
Qed.






(** *** The metadata pass, one member at a time *)

(** A metadata file that names no package of the database changes
    nothing. *)
Lemma add_hint_unknown_package prefix found pkgs e :
  found !! Dpkg.metadata_name (Tar.Name (Tar.Hdr e)) = None ->
  Dpkg.add_hint md5_Sum prefix found pkgs e = pkgs.
Proof.
  intros Hnone. unfold Dpkg.add_hint.
  destruct (_ || _); [reflexivity |]. rewrite Hnone. reflexivity.
Qed.

(** A readable metadata file whose name starts with the prefix of the
    database sets the hint of the package stored last under its name. *)
Lemma add_hint_known_package prefix found pkgs e i :
  HasPrefix (Tar.Name (Tar.Hdr e)) prefix = true ->
  HasSuffix (Tar.Name (Tar.Hdr e)) Dpkg.suffix = true ->
  found !! Dpkg.metadata_name (Tar.Name (Tar.Hdr e)) = Some i ->
  Tar.DataErr e = None ->
  Dpkg.add_hint md5_Sum prefix found pkgs e
  = alter (Claircore.set_RepositoryHint (EncodeToString (md5_Sum (Tar.Data e)))) i pkgs.
Proof.
  intros Hp Hs Hi Herr. unfold Dpkg.add_hint.
  rewrite Hp, Hs, Hi, Herr. reflexivity.
Qed.

Lemma only_database (loc : gmap string nat) p :
  loc = {[p := 2]} ->
  loc !! p = Some 2 /\ forall q, loc !! q = Some 2 -> q = p.
Proof.
  intros ->. split; [apply lookup_singleton_eq |].
  intros q Hq. apply lookup_singleton_Some in Hq as [-> _]. reflexivity.
Qed.

(** C8, where the code departs from it. The metadata file of the package
    foo sets its RepositoryHint when the archive stores its members under
    clean names, and is passed over when the same members are stored under
    names that start with "./": the database is found all the same, and
    the hint stays empty. *)
Theorem Scan_passes_over_dot_slash_metadata :
  Parse Examples.status_foo = [Examples.foo] ->
  Scan Examples.foo_layer
  = Dpkg.Return
      (Some [Claircore.set_RepositoryHint
               (EncodeToString (md5_Sum Examples.md5sums_foo))
               (Dpkg.to_package "var/lib/dpkg/status" Examples.foo)])
      None
  /\ Scan Examples.dot_slash_layer
     = Dpkg.Return (Some [Dpkg.to_package "var/lib/dpkg/status" Examples.foo]) None.
Proof.
  intros HParse. split.
  - assert (Hloc : Dpkg.find_databases Examples.foo_members = {["var/lib/dpkg" := 2]})
      by (vm_compute; reflexivity).
    destruct (only_database _ _ Hloc) as [Hp Honly].
    rewrite (Scan_one_database Examples.foo_layer _ "var/lib/dpkg"
               (Examples.file "var/lib/dpkg/status" Examples.status_foo)
               eq_refl eq_refl eq_refl Hp Honly eq_refl).
    cbn [Tar.Data Examples.file]. rewrite HParse. reflexivity.
  - assert (Hloc : Dpkg.find_databases Examples.dot_slash_members = {["var/lib/dpkg" := 2]})
      by (vm_compute; reflexivity).
    destruct (only_database _ _ Hloc) as [Hp Honly].
    rewrite (Scan_one_database Examples.dot_slash_layer _ "var/lib/dpkg"
               (Examples.file "./var/lib/dpkg/status" Examples.status_foo)
               eq_refl eq_refl eq_refl Hp Honly eq_refl).
    cbn [Tar.Data Examples.file]. rewrite HParse. reflexivity.
Qed.

End DpkgProperties.

(** * Properties of the Ubuntu distribution scanner *)

Section UbuntuProperties.

Import Go.

Variable range : gmap string string -> list (string * string).

(** A [range] visits every entry of the map once, in any order. *)
Hypothesis range_visits : forall m, range m ≡ₚ map_to_list m.

Abbreviation probes := [Ubuntu.osReleasePath; Ubuntu.lsbReleasePath].

(** *** The signature loop *)


Lemma first_match_earliest rs buff i ur :
  rs !! i = Some ur ->
  Regexp.Match (Ubuntu.regexp ur) buff = true ->
  (forall j ur', j < i -> rs !! j = Some ur' ->
                 Regexp.Match (Ubuntu.regexp ur') buff = false) ->
  Ubuntu.first_match rs buff = Some (Ubuntu.releaseToDist (Ubuntu.release ur)).
Proof.
  revert i. induction rs as [|ur0 rs IH]; intros i Hi Hm Hearlier.
  - destruct i; discriminate.
  - destruct i as [|i]; simpl in *.
    + injection Hi as ->. rewrite Hm. reflexivity.
    + rewrite (Hearlier 0 ur0) by (lia || reflexivity).
      apply (IH i); [exact Hi | exact Hm |].
      intros j ur' Hj Hj'. apply (Hearlier (S j)); [lia | exact Hj'].
Qed.

(** *** The loop over the files *)

Lemma scan_files_no_error files : (Ubuntu.scan_files files).2 = None.
Proof.
  induction files as [|[path buff] files IH]; [reflexivity |].
  simpl. destruct (Ubuntu.parse buff); [reflexivity | exact IH].
Qed.


Lemma scan_files_first_match before path buff after dist :
  Forall (fun f : string * string => Ubuntu.parse f.2 = None) before ->
  Ubuntu.parse buff = Some dist ->
  Ubuntu.scan_files (before ++ (path, buff) :: after) = (Some [dist], None).
Proof.
  intros Hbefore Hbuff.
  induction Hbefore as [|[path0 buff0] before Hf _ IH]; simpl in *.
  - rewrite Hbuff. reflexivity.
  - rewrite Hf. exact IH.
Qed.

(** The loop ends empty-handed, or with the distribution of one of the
    files it was given. *)
Lemma scan_files_cases files :
  (Forall (fun f : string * string => Ubuntu.parse f.2 = None) files
   /\ Ubuntu.scan_files files = (Some [], None))
  \/ (exists path buff dist,
        (path, buff) ∈ files /\ Ubuntu.parse buff = Some dist
        /\ Ubuntu.scan_files files = (Some [dist], None)).
Proof.
  induction files as [|[path buff] files IH].
  - left. split; [constructor | reflexivity].
  - simpl. destruct (Ubuntu.parse buff) as [dist |] eqn:Hbuff.
    + right. exists path, buff, dist. split; [left | split; [exact Hbuff | reflexivity]].
    + destruct IH as [[Hall Hs] | (path' & buff' & dist & Hin & Hp & Hs)].
      * left. split; [constructor; assumption | exact Hs].
      * right. exists path', buff', dist. split; [right; exact Hin | split; assumption].
Qed.

(** *** What [Files] returns for the two probe paths *)

Lemma content_member l rd path :
  Claircore.Reader l = inr rd ->
  Claircore.content l path = Tar.Data <$> Claircore.member (Claircore.Stream rd) (Clean path).
Proof. unfold Claircore.content. intros ->. reflexivity. Qed.

Lemma Files_probes l :
  match Claircore.Files l probes with
  | (files, None) =>
      files <> ∅
      /\ forall path buff,
           files !! path = Some buff
           <-> path ∈ probes /\ Claircore.content l path = Some buff
  | (_, Some _) =>
      forall rd, Claircore.Reader l = inr rd -> Tar.End (Claircore.Stream rd) = EOF ->
                 Claircore.content l Ubuntu.osReleasePath = None
                 /\ Claircore.content l Ubuntu.lsbReleasePath = None
  end.
Proof.
  unfold Claircore.Files.
  destruct (Claircore.Reader l) as [e | rd] eqn:Hrd; [discriminate |].
  destruct (is_EOF (Tar.End (Claircore.Stream rd))) eqn:Hend.
  2:{ intros rd' [= <-] Hend'. rewrite Hend' in Hend. discriminate. }
  cbn [foldr].
  pose proof (content_member l rd Ubuntu.osReleasePath Hrd) as Ho.
  pose proof (content_member l rd Ubuntu.lsbReleasePath Hrd) as Hl.
  change (Clean Ubuntu.osReleasePath) with Ubuntu.osReleasePath in *.
  change (Clean Ubuntu.lsbReleasePath) with Ubuntu.lsbReleasePath in *.
  assert (Hne : Ubuntu.osReleasePath <> Ubuntu.lsbReleasePath) by discriminate.
  assert (Hprobes : forall path, path ∈ probes
                                 <-> path = Ubuntu.osReleasePath \/ path = Ubuntu.lsbReleasePath).
  { intros path. rewrite elem_of_cons, list_elem_of_singleton. reflexivity. }
  destruct (Claircore.member (Claircore.Stream rd) Ubuntu.osReleasePath) as [eo |];
    destruct (Claircore.member (Claircore.Stream rd) Ubuntu.lsbReleasePath) as [el |];
    cbn [fmap option_fmap option_map] in Ho, Hl.
  - rewrite decide_False by apply insert_non_empty.
    split; [apply insert_non_empty |]. intros path buff.
    rewrite !lookup_insert_Some, lookup_empty, Hprobes. split.
    + intros [[<- <-] | [_ [[<- <-] | [_ H]]]]; [auto | auto | discriminate].
    + intros [[-> | ->] Hc]; [left | right; split; [exact Hne | left]];
        split; congruence.
  - rewrite decide_False by apply insert_non_empty.
    split; [apply insert_non_empty |]. intros path buff.
    rewrite lookup_insert_Some, lookup_empty, Hprobes. split.
    + intros [[<- <-] | [_ H]]; [auto | discriminate].
    + intros [[-> | ->] Hc]; [left; split; congruence | congruence].
  - rewrite decide_False by apply insert_non_empty.
    split; [apply insert_non_empty |]. intros path buff.
    rewrite lookup_insert_Some, lookup_empty, Hprobes. split.
    + intros [[<- <-] | [_ H]]; [auto | discriminate].
    + intros [[-> | ->] Hc]; [congruence | left; split; congruence].
  - rewrite decide_True by reflexivity. intros rd' _ _. split; assumption.
Qed.

(** Every file the loop visits is a probe file of the layer. *)
Lemma visited_is_content l files path buff :
  Claircore.Files l probes = (files, None) ->
  (path, buff) ∈ range files ->
  path ∈ probes /\ Claircore.content l path = Some buff.
Proof.
  intros HF Hin. pose proof (Files_probes l) as H. rewrite HF in H.
  destruct H as [_ H]. apply H. apply elem_of_map_to_list.
  rewrite <- range_visits. exact Hin.
Qed.

(** *** [Scan] *)

(** C10. [Scan] never returns a non-nil error, and whenever [Layer.Files]
    fails, for an unreadable archive or any other reason, it returns
    absent: a nil slice and a nil error. *)
Theorem Scan_returns_no_error l :
  (Ubuntu.Scan range l).2 = None
  /\ forall files err,
       Claircore.Files l probes = (files, Some err) ->
       Ubuntu.Scan range l = (None, None).
Proof.
  unfold Ubuntu.Scan. split.
  - destruct (Claircore.Files l probes) as [files [err |]]; [reflexivity |].
    apply scan_files_no_error.
  - intros files err ->. reflexivity.
Qed.


(** C5. When a content matches several signatures, [parse] returns the
    release of the one that comes first in the table; and so does [Scan]
    for a readable layer whose probe files all have that content. *)
Theorem parse_earliest_signature buff i ur :
  Ubuntu.ubuntuRegexes !! i = Some ur ->
  Regexp.Match (Ubuntu.regexp ur) buff = true ->
  (forall j ur', j < i -> Ubuntu.ubuntuRegexes !! j = Some ur' ->
                 Regexp.Match (Ubuntu.regexp ur') buff = false) ->
  Ubuntu.parse buff = Some (Ubuntu.releaseToDist (Ubuntu.release ur))
  /\ forall l rd,
       Claircore.Reader l = inr rd ->
       Tar.End (Claircore.Stream rd) = EOF ->
       is_Some (Claircore.content l Ubuntu.osReleasePath)
       \/ is_Some (Claircore.content l Ubuntu.lsbReleasePath) ->
       (forall path b, path ∈ probes -> Claircore.content l path = Some b -> b = buff) ->
       Ubuntu.Scan range l = (Some [Ubuntu.releaseToDist (Ubuntu.release ur)], None).
Proof.
  intros Hi Hm Hearlier.
  assert (Hparse : Ubuntu.parse buff = Some (Ubuntu.releaseToDist (Ubuntu.release ur)))
    by exact (first_match_earliest _ _ _ _ Hi Hm Hearlier).
  split; [exact Hparse |].
  intros l rd Hrd Hend Hsome Hsame.
  pose proof (Files_probes l) as HF. unfold Ubuntu.Scan.
  destruct (Claircore.Files l probes) as [files [err |]] eqn:Hfiles.
  - destruct (HF rd Hrd Hend) as [Ho Hl].
    rewrite Ho, Hl in Hsome. destruct Hsome as [[x Hx] | [x Hx]]; discriminate.
  - destruct (range files) as [|[path b] rest] eqn:Hrange.
    + destruct HF as [Hne _]. exfalso. apply Hne. apply map_to_list_empty_iff.
      apply Permutation_nil_r. rewrite <- range_visits, Hrange. reflexivity.
    + assert (Hin : (path, b) ∈ range files) by (rewrite Hrange; left).
      destruct (visited_is_content _ _ _ _ Hfiles Hin) as [Hpath Hc].
      rewrite (Hsame path b Hpath Hc). simpl. rewrite Hparse. reflexivity.
Qed.

End UbuntuProperties.

Section UbuntuOrders.

Import Go.

(** Two runs of [Scan]: each ranges over the map in an order of its own. *)
Variables range1 range2 : gmap string string -> list (string * string).
Hypothesis range1_visits : forall m, range1 m ≡ₚ map_to_list m.
Hypothesis range2_visits : forall m, range2 m ≡ₚ map_to_list m.

Abbreviation probes := [Ubuntu.osReleasePath; Ubuntu.lsbReleasePath].

(** C2, as the code has it. [Scan] returns the distribution of the first
    file, in the order the map of files is ranged over, in which a
    signature matches; two runs on the same layer return the same result
    whenever the two probe files, where both match, match the same
    release. *)
Theorem Scan_same_on_agreeing_files l :
  (forall files before path buff after dist,
     Claircore.Files l probes = (files, None) ->
     range1 files = before ++ (path, buff) :: after ->
     Forall (fun f : string * string => Ubuntu.parse f.2 = None) before ->
     Ubuntu.parse buff = Some dist ->
     Ubuntu.Scan range1 l = (Some [dist], None))
  /\ ((forall b1 b2 d1 d2,
         Claircore.content l Ubuntu.osReleasePath = Some b1 ->
         Claircore.content l Ubuntu.lsbReleasePath = Some b2 ->
         Ubuntu.parse b1 = Some d1 -> Ubuntu.parse b2 = Some d2 -> d1 = d2) ->
      Ubuntu.Scan range1 l = Ubuntu.Scan range2 l).
Proof.
  split.
  - intros files before path buff after dist Hfiles Hrange Hbefore Hbuff.
    unfold Ubuntu.Scan. rewrite Hfiles, Hrange.
    apply scan_files_first_match; assumption.
  - intros Hagree. unfold Ubuntu.Scan.
    destruct (Claircore.Files l probes) as [files [err |]] eqn:Hfiles; [reflexivity |].
    assert (Hperm : range1 files ≡ₚ range2 files)
      by (rewrite range1_visits, range2_visits; reflexivity).
    assert (Hsame : forall p1 c1 e1 p2 c2 e2,
               (p1, c1) ∈ range1 files -> (p2, c2) ∈ range1 files ->
               Ubuntu.parse c1 = Some e1 -> Ubuntu.parse c2 = Some e2 -> e1 = e2).
    { intros p1 c1 e1 p2 c2 e2 H1 H2 He1 He2.
      destruct (visited_is_content range1 range1_visits _ _ _ _ Hfiles H1) as [Hp1 Hc1].
      destruct (visited_is_content range1 range1_visits _ _ _ _ Hfiles H2) as [Hp2 Hc2].
      apply elem_of_cons in Hp1 as [-> | Hp1]; [| apply list_elem_of_singleton in Hp1 as ->];
        (apply elem_of_cons in Hp2 as [-> | Hp2]; [| apply list_elem_of_singleton in Hp2 as ->]).
      - congruence.
      - exact (Hagree _ _ _ _ Hc1 Hc2 He1 He2).
      - symmetry. exact (Hagree _ _ _ _ Hc2 Hc1 He2 He1).
      - congruence. }
    destruct (scan_files_cases (range1 files)) as [[Hall1 ->] | (p1 & c1 & e1 & Hin1 & He1 & ->)];
      destruct (scan_files_cases (range2 files)) as [[Hall2 ->] | (p2 & c2 & e2 & Hin2 & He2 & ->)].
    + reflexivity.
    + rewrite <- Hperm in Hin2.
      rewrite Forall_forall in Hall1. specialize (Hall1 _ Hin2). cbn [snd] in Hall1. congruence.
    + rewrite Hperm in Hin1.
      rewrite Forall_forall in Hall2. specialize (Hall2 _ Hin1). cbn [snd] in Hall2. congruence.
    + rewrite <- Hperm in Hin2.
      rewrite (Hsame _ _ _ _ _ _ Hin1 Hin2 He1 He2). reflexivity.
Qed.

End UbuntuOrders.

(** * The theorems on the example layers *)

Section Instances.

Import Go.

Lemma in_order_visits {V} (m : gmap string V) : Examples.in_order m ≡ₚ map_to_list m.
Proof. reflexivity. Qed.

Lemma in_reverse_visits {V} (m : gmap string V) : Examples.in_reverse m ≡ₚ map_to_list m.
Proof. apply reverse_Permutation. Qed.

Abbreviation example_Scan :=
  (Dpkg.Scan Examples.parse_example Examples.digest_example Examples.in_order).

Abbreviation example_reader es :=
  {| Claircore.Stream := {| Tar.Entries := es; Tar.End := EOF |};
     Claircore.Seek := Some (0%Z, None) |}.












Lemma Scan_passes_over_dot_slash_metadata_witness :
  example_Scan Examples.foo_layer
  = Dpkg.Return
      (Some [Claircore.set_RepositoryHint
               (EncodeToString Examples.md5sums_foo)
               (Dpkg.to_package "var/lib/dpkg/status" Examples.foo)])
      None
  /\ example_Scan Examples.dot_slash_layer
     = Dpkg.Return (Some [Dpkg.to_package "var/lib/dpkg/status" Examples.foo]) None.
Proof.
  exact (Scan_passes_over_dot_slash_metadata
           Examples.parse_example Examples.digest_example Examples.in_order in_order_visits
           eq_refl).
Defined.

(** C2, as stated, fails: on the layer whose probe files name different
    releases, two runs that range over the map of files in different
    orders return different distributions. *)
Lemma Scan_depends_on_range_order :
  (forall m : gmap string string, Examples.in_order m ≡ₚ map_to_list m)
  /\ (forall m : gmap string string, Examples.in_reverse m ≡ₚ map_to_list m)
  /\ Ubuntu.Scan Examples.in_order Examples.two_releases_layer
     = (Some [Ubuntu.releaseToDist Ubuntu.Bionic], None)
  /\ Ubuntu.Scan Examples.in_reverse Examples.two_releases_layer
     = (Some [Ubuntu.releaseToDist Ubuntu.Xenial], None).
Proof.
  split; [apply @in_order_visits |]. split; [apply @in_reverse_visits |].
  split; vm_compute; reflexivity.
Qed.

Lemma Scan_same_on_agreeing_files_witness :
  Ubuntu.Scan Examples.in_order Examples.bionic_layer
  = (Some [Ubuntu.releaseToDist Ubuntu.Bionic], None)
  /\ Ubuntu.Scan Examples.in_order Examples.bionic_layer
     = Ubuntu.Scan Examples.in_reverse Examples.bionic_layer.
Proof.
  destruct (Scan_same_on_agreeing_files
              Examples.in_order Examples.in_reverse in_order_visits in_reverse_visits
              Examples.bionic_layer) as [Hfirst Hsame].
  split.
  - destruct (Examples.in_order
                (Claircore.Files Examples.bionic_layer
                   [Ubuntu.osReleasePath; Ubuntu.lsbReleasePath]).1)
      as [|[path buff] after] eqn:Horder; [vm_compute in Horder; discriminate |].
    apply (Hfirst (Claircore.Files Examples.bionic_layer
                     [Ubuntu.osReleasePath; Ubuntu.lsbReleasePath]).1 [] path buff after).
    + vm_compute. reflexivity.
    + exact Horder.
    + constructor.
    + vm_compute in Horder. injection Horder as <- <- _. vm_compute. reflexivity.
  - apply Hsame. intros b1 b2 d1 d2 H1 H2.
    vm_compute in H1, H2. injection H1 as <-. injection H2 as <-.
    vm_compute. congruence.
Defined.


Lemma parse_earliest_signature_witness :
  Regexp.Match (Ubuntu.regexp (Ubuntu.signature Ubuntu.Xenial "xenial"))
    Examples.bionic_and_xenial = true
  /\ Ubuntu.parse Examples.bionic_and_xenial = Some (Ubuntu.releaseToDist Ubuntu.Bionic)
  /\ Ubuntu.Scan Examples.in_order Examples.bionic_and_xenial_layer
     = (Some [Ubuntu.releaseToDist Ubuntu.Bionic], None).
Proof.
  split; [vm_compute; reflexivity |].
  destruct (parse_earliest_signature Examples.in_order in_order_visits
              Examples.bionic_and_xenial 1 (Ubuntu.signature Ubuntu.Bionic "bionic"))
    as [Hparse HScan].
  - reflexivity.
  - vm_compute. reflexivity.
  - intros j ur' Hj Hur'. destruct j as [|j]; [| lia].
    injection Hur' as <-. vm_compute. reflexivity.
  - split; [exact Hparse |].
    apply (HScan Examples.bionic_and_xenial_layer
             (example_reader [Examples.file "etc/os-release" Examples.bionic_and_xenial])).
    + reflexivity.
    + reflexivity.
    + left. exists Examples.bionic_and_xenial. vm_compute. reflexivity.
    + intros path b Hpath Hc.
      apply elem_of_cons in Hpath as [-> | Hpath];
        [| apply list_elem_of_singleton in Hpath as ->];
        vm_compute in Hc; [| discriminate].
      injection Hc as <-. reflexivity.
Defined.

Lemma Scan_returns_no_error_witness :
  (Ubuntu.Scan Examples.in_order Examples.unreadable_layer).2 = None
  /\ Ubuntu.Scan Examples.in_order Examples.unreadable_layer = (None, None).
Proof.
  destruct (Scan_returns_no_error Examples.in_order Examples.unreadable_layer)
    as [Herr Habsent].
  split; [exact Herr |].
  apply (Habsent ∅ (errorString "open layer: no such file")).
  reflexivity.
Defined.

End Instances.

(** * Further properties of the dpkg scanner *)

Section DpkgOutcomes.

Import Go.

Variable Parse : string -> list GoDpkg.ParsedPackage.
Variable md5_Sum : string -> string.
Variable range : gmap string nat -> list (string * nat).
Hypothesis range_visits : forall m, range m ≡ₚ map_to_list m.

Abbreviation Scan := (Dpkg.Scan Parse md5_Sum range).
Abbreviation scan_database := (Dpkg.scan_database Parse md5_Sum).
Abbreviation scan_databases := (Dpkg.scan_databases Parse md5_Sum).

Lemma visited_is_in_map (loc : gmap string nat) q x :
  (q, x) ∈ range loc -> loc !! q = Some x.
Proof. intros Hin. apply elem_of_map_to_list. rewrite <- range_visits. exact Hin. Qed.


(** X1. A layer in which no directory reaches score 2 has no dpkg
    database for [Scan]: it returns absent, and it does so without
    rewinding the reader, so also when the reader cannot seek to the
    start. *)
Theorem Scan_no_database layer rd seek :
  Claircore.Reader layer = inr rd ->
  Claircore.Seek rd = Some seek ->
  Tar.End (Claircore.Stream rd) = EOF ->
  (forall q, Dpkg.find_databases (Tar.Entries (Claircore.Stream rd)) !! q <> Some 2) ->
  Scan layer = Dpkg.Return None None.
Proof.
  intros Hrd Hseek Hend Hnone.
  unfold Dpkg.Scan. rewrite Hrd, Hseek, Hend. cbn [is_EOF].
  apply (scan_databases_none_confirmed Parse md5_Sum).
  apply Forall_forall. intros [q x] Hin Hx. cbn [snd] in Hx. subst x.
  exact (Hnone q (visited_is_in_map _ _ _ Hin)).
Qed.

Lemma scan_database_leaves a seek p pkgs o :
  scan_database a seek p pkgs = Dpkg.Leave o ->
  exists err, o = Dpkg.Return None err.
Proof.
  unfold Dpkg.scan_database.
  destruct (Dpkg.seek_failed seek); [intros [= <-]; eauto |].
  destruct (search_status_ends (Join [p; "status"]) (Tar.Entries a) (Tar.End a))
    as [[-> _] | (db & -> & _)].
  - destruct (errors_Is_EOF (Tar.End a)); intros [= <-]; eauto.
  - discriminate.
Qed.





End DpkgOutcomes.

Section DpkgPackages.

Import Go.

Variable Parse : string -> list GoDpkg.ParsedPackage.
Variable md5_Sum : string -> string.
Variable range : gmap string nat -> list (string * nat).
Hypothesis range_visits : forall m, range m ≡ₚ map_to_list m.

Abbreviation Scan := (Dpkg.Scan Parse md5_Sum range).
Abbreviation scan_database := (Dpkg.scan_database Parse md5_Sum).
Abbreviation scan_databases := (Dpkg.scan_databases Parse md5_Sum).

(** A property of packages that the hints the loop stores do not change
    holds after the metadata loop when it held before. *)
Lemma metadata_pass_Forall (P : Claircore.Package -> Prop) prefix found es pkgs :
  (forall e pk, e ∈ es -> HasSuffix (Tar.Name (Tar.Hdr e)) Dpkg.suffix = true ->
                Tar.DataErr e = None -> P pk ->
                P (Claircore.set_RepositoryHint (EncodeToString (md5_Sum (Tar.Data e))) pk)) ->
  Forall P pkgs ->
  Forall P (fold_left (Dpkg.add_hint md5_Sum prefix found) es pkgs).
Proof.
  revert pkgs. induction es as [|e es IH]; intros pkgs Hhint Hpkgs; [exact Hpkgs |].
  cbn [fold_left]. apply IH; [intros e' pk He'; apply Hhint; right; exact He' |].
  unfold Dpkg.add_hint.
  destruct (HasPrefix _ prefix); cbn [negb orb]; [| exact Hpkgs].
  destruct (HasSuffix _ Dpkg.suffix) eqn:Hsuffix; cbn [negb]; [| exact Hpkgs].
  destruct (found !! _) as [i |]; [| exact Hpkgs].
  destruct (Tar.DataErr e) eqn:Herr; [exact Hpkgs |].
  apply Forall_alter; [exact Hpkgs |].
  intros pk _ Hpk. apply Hhint; [left | exact Hsuffix | exact Herr | exact Hpk].
Qed.

Lemma scan_database_Forall (P : Claircore.Package -> Prop) a seek p pkgs pkgs' :
  (forall e pk, e ∈ Tar.Entries a -> HasSuffix (Tar.Name (Tar.Hdr e)) Dpkg.suffix = true ->
                Tar.DataErr e = None -> P pk ->
                P (Claircore.set_RepositoryHint (EncodeToString (md5_Sum (Tar.Data e))) pk)) ->
  (forall db st, Dpkg.status_member a p = Some db -> st ∈ Parse (Tar.Data db) ->
                 P (Dpkg.to_package (Join [p; "status"]) st)) ->
  Forall P pkgs ->
  scan_database a seek p pkgs = Dpkg.Continue pkgs' ->
  Forall P pkgs'.
Proof.
  intros Hhint Hnew Hpkgs. unfold Dpkg.scan_database, Dpkg.status_member in *.
  destruct (Dpkg.seek_failed seek); [discriminate |].
  destruct (search_status_ends (Join [p; "status"]) (Tar.Entries a) (Tar.End a))
    as [[Hs _] | (db & Hs & _)]; rewrite Hs in *.
  - destruct (errors_Is_EOF (Tar.End a)); discriminate.
  - intros [= <-]. apply metadata_pass_Forall; [exact Hhint |].
    rewrite add_packages_appends. apply Forall_app. split; [exact Hpkgs |].
    apply Forall_fmap, Forall_forall. intros st Hst. apply (Hnew db st eq_refl Hst).
Qed.

Lemma scan_databases_Forall (P : Claircore.Package -> Prop) a seek order pkgs pkgs' err :
  (forall e pk, e ∈ Tar.Entries a -> HasSuffix (Tar.Name (Tar.Hdr e)) Dpkg.suffix = true ->
                Tar.DataErr e = None -> P pk ->
                P (Claircore.set_RepositoryHint (EncodeToString (md5_Sum (Tar.Data e))) pk)) ->
  (forall p db st, (p, 2) ∈ order -> Dpkg.status_member a p = Some db ->
                   st ∈ Parse (Tar.Data db) ->
                   P (Dpkg.to_package (Join [p; "status"]) st)) ->
  Forall P pkgs ->
  scan_databases a seek order pkgs = Dpkg.Return (Some pkgs') err ->
  Forall P pkgs'.
Proof.
  intros Hhint. revert pkgs.
  induction order as [|[q x] order IH]; intros pkgs Hnew Hpkgs.
  - destruct pkgs; cbn; [discriminate |]. intros [= <- _]. exact Hpkgs.
  - cbn [Dpkg.scan_databases].
    assert (Hnew' : forall p db st, (p, 2) ∈ order -> Dpkg.status_member a p = Some db ->
                                    st ∈ Parse (Tar.Data db) ->
                                    P (Dpkg.to_package (Join [p; "status"]) st))
      by (intros p db st Hin; apply Hnew; right; exact Hin).
    destruct (Nat.eqb_spec x 2) as [-> | Hx]; cbn [negb]; [| apply IH; assumption].
    destruct (scan_database a seek q pkgs) as [pkgs1 | o] eqn:Hdb.
    + apply IH; [exact Hnew' |].
      apply (scan_database_Forall P a seek q pkgs pkgs1 Hhint); [| exact Hpkgs | exact Hdb].
      intros db st. apply Hnew. left.
    + intros ->. destruct (scan_database_leaves _ _ _ _ _ _ _ Hdb) as [e He]. discriminate.
Qed.

Lemma Scan_Forall (P : Claircore.Package -> Prop) layer pkgs err :
  (forall rd e pk,
     Claircore.Reader layer = inr rd ->
     e ∈ Tar.Entries (Claircore.Stream rd) ->
     HasSuffix (Tar.Name (Tar.Hdr e)) Dpkg.suffix = true ->
     Tar.DataErr e = None -> P pk ->
     P (Claircore.set_RepositoryHint (EncodeToString (md5_Sum (Tar.Data e))) pk)) ->
  (forall rd p db st,
     Claircore.Reader layer = inr rd ->
     Dpkg.find_databases (Tar.Entries (Claircore.Stream rd)) !! p = Some 2 ->
     Dpkg.status_member (Claircore.Stream rd) p = Some db ->
     st ∈ Parse (Tar.Data db) ->
     P (Dpkg.to_package (Join [p; "status"]) st)) ->
  Scan layer = Dpkg.Return (Some pkgs) err ->
  Forall P pkgs.
Proof.
  intros Hhint Hnew. unfold Dpkg.Scan.
  destruct (Claircore.Reader layer) as [e | rd]; [discriminate |].
  destruct (Claircore.Seek rd) as [seek |]; [| discriminate].
  destruct (is_EOF _); [| discriminate].
  apply scan_databases_Forall;
    [intros e pk; apply (Hhint rd e pk eq_refl) | | constructor].
  intros p db st Hin. apply (Hnew rd p db st eq_refl).
  exact (visited_is_in_map range range_visits _ _ _ Hin).
Qed.

Lemma to_package_well_formed fn st : Results.well_formed (Dpkg.to_package fn st).
Proof.
  unfold Results.well_formed, Dpkg.to_package. cbn.
  split; [reflexivity |].
  destruct (String.eqb_spec (GoDpkg.Source st) ""); [exact I |].
  cbn. repeat split; (reflexivity || assumption).
Qed.

(** X4. Every package [Scan] returns is a BINARY package, and its Source
    reference, when there is one, is a SOURCE package with a non-empty
    name, the version and the database path of the binary package, and no
    Source, hint or architecture of its own. *)
Theorem Scan_packages_well_formed layer pkgs err :
  Scan layer = Dpkg.Return (Some pkgs) err ->
  Forall Results.well_formed pkgs.
Proof.
  apply Scan_Forall.
  - intros rd e [n v k src db hint arch] _ _ _ _ Hpk. exact Hpk.
  - intros rd p db st _ _ _ _. apply to_package_well_formed.
Qed.

(** X5. Every package [Scan] returns comes from a stanza of the status
    file of a confirmed directory: up to its hint it is the package built
    from that stanza, so its PackageDB is the cleaned name of that status
    file. *)
Theorem Scan_packages_come_from_stanzas layer pkgs err :
  Scan layer = Dpkg.Return (Some pkgs) err ->
  exists rd,
    Claircore.Reader layer = inr rd
    /\ Forall (fun pk =>
                 exists p db st,
                   Dpkg.find_databases (Tar.Entries (Claircore.Stream rd)) !! p = Some 2
                   /\ Dpkg.status_member (Claircore.Stream rd) p = Some db
                   /\ st ∈ Parse (Tar.Data db)
                   /\ Dpkg.same_but_hint pk (Dpkg.to_package (Join [p; "status"]) st)
                   /\ Claircore.PackageDB pk = Clean (Tar.Name (Tar.Hdr db)))
              pkgs.
Proof.
  intros Hscan.
  destruct (Claircore.Reader layer) as [e | rd] eqn:Hrd.
  { unfold Dpkg.Scan in Hscan. rewrite Hrd in Hscan. discriminate. }
  exists rd. split; [reflexivity |].
  revert Hscan. apply Scan_Forall.
  - intros rd' e pk _ _ _ _ (p & db & st & Hp & Hdb & Hst & Hsame & Hpath).
    exists p, db, st. repeat split; assumption.
  - intros rd' p db st Hrd' Hp Hdb Hst. rewrite Hrd in Hrd'. injection Hrd' as <-.
    exists p, db, st. repeat split; try assumption.
    destruct (status_member_found _ _ _ Hdb) as [_ Hname]. rewrite Hname. reflexivity.
Qed.

Lemma hex_digits_of_byte b :
  Results.is_hex_digit (hex_digit (N_of_ascii b / 16)) = true
  /\ Results.is_hex_digit (hex_digit (N_of_ascii b mod 16)) = true.
Proof. destruct b as [[] [] [] [] [] [] [] []]; vm_compute; split; reflexivity. Qed.

(** The encoding has two lower-case hexadecimal digits for each byte. *)
Lemma EncodeToString_hex bs : Results.hex_text (String.length bs) (EncodeToString bs).
Proof.
  induction bs as [|b bs [IHlen IHall]]; [split; [reflexivity | constructor] |].
  destruct (hex_digits_of_byte b) as [Hhi Hlo].
  split.
  - cbn [EncodeToString String.length]. rewrite IHlen. lia.
  - cbn [EncodeToString list_ascii_of_string]. constructor; [exact Hhi |].
    constructor; [exact Hlo | exact IHall].
Qed.

(** X17. The RepositoryHint of every package [Scan] returns is empty or
    the hex encoding of the digest of a readable member of the layer whose
    name ends in ".md5sums": two lower-case hexadecimal digits for each
    byte of the digest. *)
Theorem Scan_hints_are_digests layer pkgs err :
  Scan layer = Dpkg.Return (Some pkgs) err ->
  exists rd,
    Claircore.Reader layer = inr rd
    /\ Forall (fun pk =>
                 Claircore.RepositoryHint pk = ""
                 \/ exists e,
                      e ∈ Tar.Entries (Claircore.Stream rd)
                      /\ HasSuffix (Tar.Name (Tar.Hdr e)) Dpkg.suffix = true
                      /\ Tar.DataErr e = None
                      /\ Claircore.RepositoryHint pk = EncodeToString (md5_Sum (Tar.Data e))
                      /\ Results.hex_text (String.length (md5_Sum (Tar.Data e)))
                                          (Claircore.RepositoryHint pk))
              pkgs.
Proof.
  intros Hscan.
  destruct (Claircore.Reader layer) as [e | rd] eqn:Hrd.
  { unfold Dpkg.Scan in Hscan. rewrite Hrd in Hscan. discriminate. }
  exists rd. split; [reflexivity |].
  revert Hscan. apply Scan_Forall.
  - intros rd' e pk Hrd' He Hsuffix Herr _. rewrite Hrd in Hrd'. injection Hrd' as <-.
    right. exists e. repeat split; try assumption; apply EncodeToString_hex.
  - intros rd' p db st _ _ _ _. left. reflexivity.
Qed.

End DpkgPackages.

Section DpkgMetadata.

Import Go.

Variable Parse : string -> list GoDpkg.ParsedPackage.
Variable md5_Sum : string -> string.

Abbreviation scan_database := (Dpkg.scan_database Parse md5_Sum).
Abbreviation scan_databases := (Dpkg.scan_databases Parse md5_Sum).

Lemma add_package_snoc fn stanzas st found pkgs :
  fold_left (Dpkg.add_package fn) (stanzas ++ [st]) (found, pkgs)
  = Dpkg.add_package fn (fold_left (Dpkg.add_package fn) stanzas (found, pkgs)) st.
Proof. rewrite fold_left_app. reflexivity. Qed.

(** X6. After the loop over the stanzas of one database, [found] maps a
    name to the position of the package of the last stanza with that name,
    and to nothing else: the positions it holds lie among the packages of
    this database, never among those collected from another one. *)
Theorem add_packages_found fn stanzas pkgs0 n i :
  (fold_left (Dpkg.add_package fn) stanzas (∅, pkgs0)).1 !! n = Some i
  <-> exists j st,
        i = length pkgs0 + j
        /\ stanzas !! j = Some st
        /\ GoDpkg.Package st = n
        /\ forall k st', j < k -> stanzas !! k = Some st' -> GoDpkg.Package st' <> n.
Proof.
  revert i. induction stanzas as [|x l IH] using rev_ind; intros i.
  - cbn. rewrite lookup_empty. split; [discriminate |].
    intros (j & st & _ & Hj & _). destruct j; discriminate.
  - rewrite add_package_snoc.
    pose proof (add_packages_appends fn l ∅ pkgs0) as Hpkgs.
    destruct (fold_left (Dpkg.add_package fn) l (∅, pkgs0)) as [found pkgs].
    cbn [snd fst] in *. subst pkgs. cbn [Dpkg.add_package fst].
    change (Claircore.Name (Dpkg.to_package fn x)) with (GoDpkg.Package x).
    rewrite length_app, length_fmap, lookup_insert_Some, IH.
    split.
    + intros [[Hn <-] | [Hn (j & st & -> & Hj & Hst & Hlast)]].
      * exists (length l), x. split; [reflexivity |].
        split; [apply list_lookup_middle; reflexivity |]. split; [exact Hn |].
        intros k st' Hk Hk'. apply lookup_lt_Some in Hk'.
        rewrite length_app in Hk'. cbn in Hk'. lia.
      * exists j, st. split; [reflexivity |].
        split; [apply lookup_app_l_Some, Hj |]. split; [exact Hst |].
        intros k st' Hk Hk'. apply lookup_snoc_Some in Hk' as [[_ Hk'] | [_ <-]].
        -- exact (Hlast k st' Hk Hk').
        -- exact Hn.
    + intros (j & st & -> & Hj & Hst & Hlast).
      apply lookup_snoc_Some in Hj as [[Hlt Hj] | [-> ->]].
      * right. split.
        -- apply (Hlast (length l) x Hlt). apply list_lookup_middle. reflexivity.
        -- exists j, st. split; [reflexivity |]. split; [exact Hj |]. split; [exact Hst |].
           intros k st' Hk Hk'. apply (Hlast k st' Hk). apply lookup_app_l_Some, Hk'.
      * left. split; [exact Hst | reflexivity].
Qed.

(** X7. After the metadata loop the package at a position has the digest
    of the last member the loop stores there (a readable member with the
    prefix and the suffix whose package name [found] maps to the
    position), and is unchanged when there is no such member. *)
Theorem metadata_pass_lookup prefix found es pkgs i :
  fold_left (Dpkg.add_hint md5_Sum prefix found) es pkgs !! i
  = match last (List.filter (Results.hint_source prefix found i) es) with
    | Some e =>
        Claircore.set_RepositoryHint (EncodeToString (md5_Sum (Tar.Data e))) <$> pkgs !! i
    | None => pkgs !! i
    end.
Proof.
  induction es as [|e es IH] using rev_ind; [reflexivity |].
  rewrite fold_left_app, List.filter_app. cbn [fold_left List.filter].
  unfold Dpkg.add_hint at 1. unfold Results.hint_source at 2.
  destruct (HasPrefix _ prefix); cbn [andb negb orb];
    [| rewrite app_nil_r; exact IH].
  destruct (HasSuffix _ Dpkg.suffix); cbn [andb negb orb];
    [| rewrite app_nil_r; exact IH].
  destruct (found !! Dpkg.metadata_name (Tar.Name (Tar.Hdr e))) as [j |] eqn:Hj.
  2:{ rewrite bool_decide_eq_false_2 by discriminate. cbn [andb].
      rewrite app_nil_r. exact IH. }
  destruct (Tar.DataErr e) as [err |].
  { rewrite (bool_decide_eq_false_2 (Some err = None)) by discriminate.
    rewrite andb_false_r. rewrite app_nil_r. exact IH. }
  rewrite (bool_decide_eq_true_2 (None = None)) by reflexivity. rewrite andb_true_r.
  destruct (decide (j = i)) as [-> | Hne].
  - rewrite bool_decide_eq_true_2 by reflexivity. rewrite last_snoc.
    rewrite list_lookup_alter_eq, IH.
    destruct (last _); destruct (pkgs !! i); reflexivity.
  - rewrite bool_decide_eq_false_2 by congruence. rewrite app_nil_r.
    rewrite list_lookup_alter_ne by exact Hne. exact IH.
Qed.

(** *** One database after another *)







Lemma same_up_to_order_refl o :
  (forall msg, o <> Dpkg.Panic msg) -> Results.same_up_to_order o o.
Proof.
  destruct o as [[pkgs |] err | msg]; cbn; intros Hnp; [auto | auto |].
  exact (Hnp msg eq_refl).
Qed.

Variables range1 range2 : gmap string nat -> list (string * nat).
Hypothesis range1_visits : forall m, range1 m ≡ₚ map_to_list m.
Hypothesis range2_visits : forall m, range2 m ≡ₚ map_to_list m.


End DpkgMetadata.

(** * The names of metadata files *)

Section MetadataNames.

Import Go.

Lemma string_app_nil (t : string) : "" +:+ t = t.
Proof. reflexivity. Qed.

Lemma string_app_cons (c : ascii) (s t : string) : String c s +:+ t = String c (s +:+ t).
Proof. reflexivity. Qed.

Ltac string_app := rewrite ?string_app_cons, ?string_app_nil.

Lemma string_app_assoc (s t u : string) : (s +:+ t) +:+ u = s +:+ (t +:+ u).
Proof. induction s as [|c s IH]; string_app; [reflexivity | rewrite IH; reflexivity]. Qed.

Lemma string_length_app (s t : string) :
  String.length (s +:+ t) = String.length s + String.length t.
Proof.
  induction s as [|c s IH]; string_app; [reflexivity |].
  cbn [String.length]. rewrite IH. reflexivity.
Qed.

Lemma drop_bytes_app (s t : string) : drop_bytes (String.length s) (s +:+ t) = t.
Proof.
  induction s as [|c s IH]; string_app; [destruct t; reflexivity |].
  cbn [String.length drop_bytes]. exact IH.
Qed.

Lemma take_bytes_app (s t : string) : take_bytes (String.length s) (s +:+ t) = s.
Proof.
  induction s as [|c s IH]; string_app; [destruct t; reflexivity |].
  cbn [String.length take_bytes]. rewrite IH. reflexivity.
Qed.

Lemma HasPrefix_app (pre s : string) : HasPrefix (pre +:+ s) pre = true.
Proof.
  induction pre as [|c pre IH]; string_app; [destruct s; reflexivity |].
  cbn [HasPrefix]. rewrite Ascii.eqb_refl. exact IH.
Qed.

Lemma HasSuffix_app (s suf : string) : HasSuffix (s +:+ suf) suf = true.
Proof.
  unfold HasSuffix. rewrite string_length_app.
  replace (String.length s + String.length suf - String.length suf) with (String.length s) by lia.
  rewrite drop_bytes_app, String.eqb_refl, andb_true_r.
  apply Nat.leb_le. lia.
Qed.

Lemma TrimSuffix_app (s suf : string) : TrimSuffix (s +:+ suf) suf = s.
Proof.
  unfold TrimSuffix. rewrite HasSuffix_app, string_length_app.
  replace (String.length s + String.length suf - String.length suf) with (String.length s) by lia.
  apply take_bytes_app.
Qed.

Lemma IndexRune_absent (s : string) (c : ascii) :
  c ∉ list_ascii_of_string s -> IndexRune s c = None.
Proof.
  induction s as [|d s IH]; cbn [IndexRune list_ascii_of_string]; [reflexivity |].
  intros Hnotin. apply not_elem_of_cons in Hnotin as [Hne Hnotin].
  destruct (Ascii.eqb_spec d c) as [Heq | _];
    [exfalso; apply Hne; first [exact Heq | exact (eq_sym Heq)] |].
  rewrite (IH Hnotin). reflexivity.
Qed.

Lemma IndexRune_first (s t : string) (c : ascii) :
  c ∉ list_ascii_of_string s -> IndexRune (s +:+ String c t) c = Some (String.length s).
Proof.
  induction s as [|d s IH]; string_app; cbn [IndexRune list_ascii_of_string String.length].
  - intros _. rewrite Ascii.eqb_refl. reflexivity.
  - intros Hnotin. apply not_elem_of_cons in Hnotin as [Hne Hnotin].
    destruct (Ascii.eqb_spec d c) as [Heq | _];
    [exfalso; apply Hne; first [exact Heq | exact (eq_sym Heq)] |].
    rewrite (IH Hnotin). reflexivity.
Qed.

Lemma list_ascii_of_string_app (s t : string) :
  list_ascii_of_string (s +:+ t) = list_ascii_of_string s ++ list_ascii_of_string t.
Proof.
  induction s as [|c s IH]; string_app; [reflexivity |].
  cbn [list_ascii_of_string app]. rewrite IH. reflexivity.
Qed.

Lemma existsb_sep_absent (x : string) :
  Separator ∉ list_ascii_of_string x ->
  existsb (Ascii.eqb Separator) (list_ascii_of_string x) = false.
Proof.
  induction x as [|c x IH]; cbn [list_ascii_of_string existsb]; [reflexivity |].
  intros Hnotin. apply not_elem_of_cons in Hnotin as [Hne Hnotin].
  destruct (Ascii.eqb_spec Separator c) as [Heq | _];
    [exfalso; apply Hne; first [exact Heq | exact (eq_sym Heq)] |].
  exact (IH Hnotin).
Qed.

Lemma strip_trailing_sep_nonempty (x : string) :
  x <> "" -> Separator ∉ list_ascii_of_string x -> strip_trailing_sep x = x.
Proof.
  induction x as [|c x IH]; [contradiction |]. intros _ Hnotin.
  cbn [list_ascii_of_string] in Hnotin.
  apply not_elem_of_cons in Hnotin as [Hne Hnotin]. cbn [strip_trailing_sep].
  destruct x as [|d x].
  - cbn [strip_trailing_sep].
    destruct (Ascii.eqb_spec c Separator) as [Heq | _];
    [exfalso; apply Hne; first [exact Heq | exact (eq_sym Heq)] | reflexivity].
  - rewrite IH by (discriminate || exact Hnotin). reflexivity.
Qed.

Lemma strip_trailing_sep_app (s x : string) :
  x <> "" -> strip_trailing_sep x = x -> strip_trailing_sep (s +:+ x) = s +:+ x.
Proof.
  intros Hx Hstrip. induction s as [|c s IH]; string_app; [exact Hstrip |].
  cbn [strip_trailing_sep]. rewrite IH. destruct (s +:+ x) eqn:Happ; [| reflexivity].
  destruct s; [rewrite string_app_nil in Happ; contradiction | discriminate].
Qed.

Lemma after_last_sep_app (d x : string) :
  Separator ∉ list_ascii_of_string x ->
  after_last_sep (d +:+ String Separator x) = x.
Proof.
  intros Hnotin. induction d as [|c d IH]; string_app; cbn [after_last_sep].
  - rewrite (existsb_sep_absent x Hnotin). reflexivity.
  - rewrite list_ascii_of_string_app. cbn [list_ascii_of_string].
    rewrite existsb_app. cbn [existsb]. rewrite Ascii.eqb_refl, orb_true_r. exact IH.
Qed.

(** The base name of a path whose last element is [x]. *)
Lemma Base_app (d x : string) :
  x <> "" -> Separator ∉ list_ascii_of_string x ->
  Base (d +:+ String Separator x) = x.
Proof.
  intros Hx Hnotin. unfold Base.
  destruct (d +:+ String Separator x) eqn:Hpath.
  { destruct d; discriminate. }
  rewrite <- Hpath.
  rewrite (strip_trailing_sep_app d (String Separator x)).
  - rewrite after_last_sep_app by exact Hnotin. destruct x; [contradiction | reflexivity].
  - discriminate.
  - cbn [strip_trailing_sep]. rewrite strip_trailing_sep_nonempty by assumption.
    destruct x; [contradiction | reflexivity].
Qed.

Lemma sep_absent_app (n t : string) :
  Separator ∉ list_ascii_of_string n -> Separator ∉ list_ascii_of_string t ->
  Separator ∉ list_ascii_of_string (n +:+ t).
Proof.
  intros Hn Ht. rewrite list_ascii_of_string_app. intros Hin.
  apply elem_of_app in Hin as [Hin | Hin]; contradiction.
Qed.

(** X9. The metadata file of a package is looked up under the package
    name: a member [<dir>/<name>.md5sums] and a member
    [<dir>/<name>:<arch>.md5sums] both give [<name>], for a name without
    slash or colon and an architecture without slash. *)
Theorem metadata_name_of_package (dir n arch : string) :
  Separator ∉ list_ascii_of_string n ->
  ":"%char ∉ list_ascii_of_string n ->
  Separator ∉ list_ascii_of_string arch ->
  Dpkg.metadata_name (dir +:+ String Separator (n +:+ Dpkg.suffix)) = n
  /\ Dpkg.metadata_name
       (dir +:+ String Separator (n +:+ String ":"%char (arch +:+ Dpkg.suffix))) = n.
Proof.
  intros Hn Hcolon Harch.
  assert (Hsuffix : Separator ∉ list_ascii_of_string Dpkg.suffix).
  { apply (bool_decide_unpack _). vm_compute. exact I. }
  unfold Dpkg.metadata_name. split.
  - rewrite Base_app.
    + rewrite TrimSuffix_app, IndexRune_absent by exact Hcolon. reflexivity.
    + destruct n; discriminate.
    + apply sep_absent_app; assumption.
  - rewrite Base_app.
    + change (n +:+ String ":"%char (arch +:+ Dpkg.suffix))
        with (n +:+ (String ":"%char EmptyString +:+ (arch +:+ Dpkg.suffix))).
      rewrite <- !string_app_assoc, TrimSuffix_app.
      rewrite string_app_assoc. string_app.
      rewrite IndexRune_first by exact Hcolon. apply take_bytes_app.
    + destruct n; discriminate.
    + apply sep_absent_app; [exact Hn |].
      change (String ":"%char (arch +:+ Dpkg.suffix))
        with (String ":"%char EmptyString +:+ (arch +:+ Dpkg.suffix)).
      apply sep_absent_app; [| apply sep_absent_app; assumption].
      apply (bool_decide_unpack _). vm_compute. exact I.
Qed.

Variable md5_Sum : string -> string.

(** X10. In the metadata loop, a readable member named
    [<prefix><name>.md5sums] or [<prefix><name>:<arch>.md5sums], where the
    prefix ends with the separator and [found] maps the name to a
    position, stores the hex digest of its bytes as the hint of the
    package at that position and changes nothing else. *)
Theorem add_hint_of_package (dir n arch : string) found pkgs e i :
  Separator ∉ list_ascii_of_string n ->
  ":"%char ∉ list_ascii_of_string n ->
  Separator ∉ list_ascii_of_string arch ->
  Tar.Name (Tar.Hdr e) = dir +:+ String Separator (n +:+ Dpkg.suffix)
  \/ Tar.Name (Tar.Hdr e)
     = dir +:+ String Separator (n +:+ String ":"%char (arch +:+ Dpkg.suffix)) ->
  found !! n = Some i ->
  Tar.DataErr e = None ->
  Dpkg.add_hint md5_Sum (dir +:+ String Separator EmptyString) found pkgs e
  = alter (Claircore.set_RepositoryHint (EncodeToString (md5_Sum (Tar.Data e)))) i pkgs.
Proof.
  intros Hn Hcolon Harch Hname Hfound Herr.
  destruct (metadata_name_of_package dir n arch Hn Hcolon Harch) as [Hplain Hqual].
  apply add_hint_known_package; try assumption.
  - destruct Hname as [-> | ->].
    + change (dir +:+ String Separator (n +:+ Dpkg.suffix))
        with (dir +:+ (String Separator EmptyString +:+ (n +:+ Dpkg.suffix))).
      rewrite <- string_app_assoc. apply HasPrefix_app.
    + change (dir +:+ String Separator (n +:+ String ":"%char (arch +:+ Dpkg.suffix)))
        with (dir +:+ (String Separator EmptyString
                       +:+ (n +:+ String ":"%char (arch +:+ Dpkg.suffix)))).
      rewrite <- string_app_assoc. apply HasPrefix_app.
  - destruct Hname as [-> | ->].
    + change (dir +:+ String Separator (n +:+ Dpkg.suffix))
        with (dir +:+ (String Separator EmptyString +:+ (n +:+ Dpkg.suffix))).
      rewrite <- !string_app_assoc. apply HasSuffix_app.
    + change (dir +:+ String Separator (n +:+ String ":"%char (arch +:+ Dpkg.suffix)))
        with (dir +:+ (String Separator EmptyString
                       +:+ (n +:+ (String ":"%char EmptyString +:+ (arch +:+ Dpkg.suffix))))).
      rewrite <- !string_app_assoc. apply HasSuffix_app.
  - destruct Hname as [-> | ->]; [rewrite Hplain | rewrite Hqual]; exact Hfound.
Qed.

End MetadataNames.

(** * Further properties of the Ubuntu distribution scanner *)

Section UbuntuResults.

Import Go.

Variable range : gmap string string -> list (string * string).
Hypothesis range_visits : forall m, range m ≡ₚ map_to_list m.

Abbreviation probes := [Ubuntu.osReleasePath; Ubuntu.lsbReleasePath].

Lemma first_match_none_inv rs buff :
  Ubuntu.first_match rs buff = None ->
  Forall (fun ur => Regexp.Match (Ubuntu.regexp ur) buff = false) rs.
Proof.
  induction rs as [|ur rs IH]; [constructor |]. cbn [Ubuntu.first_match].
  destruct (Regexp.Match (Ubuntu.regexp ur) buff) eqn:Hm; [discriminate |].
  intros Hrest. constructor; [exact Hm | exact (IH Hrest)].
Qed.

Lemma first_match_sound rs buff dist :
  Ubuntu.first_match rs buff = Some dist ->
  exists i ur,
    rs !! i = Some ur
    /\ dist = Ubuntu.releaseToDist (Ubuntu.release ur)
    /\ Regexp.Match (Ubuntu.regexp ur) buff = true
    /\ forall j ur', j < i -> rs !! j = Some ur' ->
                     Regexp.Match (Ubuntu.regexp ur') buff = false.
Proof.
  induction rs as [|ur rs IH]; [discriminate |]. cbn [Ubuntu.first_match].
  destruct (Regexp.Match (Ubuntu.regexp ur) buff) eqn:Hm.
  - intros [= <-]. exists 0, ur. repeat split; [exact Hm |]. intros j ur' Hj. lia.
  - intros Hrest. destruct (IH Hrest) as (i & ur1 & Hi & Hd & Hm1 & Hearlier).
    exists (S i), ur1. repeat split; try assumption.
    intros [|j] ur' Hj Hj'; cbn in Hj'; [congruence |].
    apply (Hearlier j ur'); [lia | exact Hj'].
Qed.

(** X11. What [Scan] returns is justified by the layer. A non-nil result
    has a nil error and at most one distribution. When it has one, some
    probe file of the layer matches the signature of that release and none
    of the signatures before it in the table; when it is empty, no
    signature matches any probe file the layer has. *)
Theorem Scan_result_is_sound l ds err :
  Ubuntu.Scan range l = (Some ds, err) ->
  err = None
  /\ ((ds = []
       /\ forall path buff,
            path ∈ probes -> Claircore.content l path = Some buff ->
            Forall (fun ur => Regexp.Match (Ubuntu.regexp ur) buff = false)
                   Ubuntu.ubuntuRegexes)
      \/ exists path buff i ur,
           ds = [Ubuntu.releaseToDist (Ubuntu.release ur)]
           /\ path ∈ probes
           /\ Claircore.content l path = Some buff
           /\ Ubuntu.ubuntuRegexes !! i = Some ur
           /\ Regexp.Match (Ubuntu.regexp ur) buff = true
           /\ forall j ur', j < i -> Ubuntu.ubuntuRegexes !! j = Some ur' ->
                            Regexp.Match (Ubuntu.regexp ur') buff = false).
Proof.
  unfold Ubuntu.Scan. pose proof (Files_probes l) as HF.
  destruct (Claircore.Files l probes) as [files [e |]] eqn:Hfiles; [discriminate |].
  destruct HF as [_ HF].
  destruct (scan_files_cases (range files))
    as [[Hall ->] | (path & buff & dist & Hin & Hparse & ->)]; intros [= <- <-].
  - split; [reflexivity |]. left. split; [reflexivity |].
    intros path buff Hpath Hc. apply first_match_none_inv.
    assert (Hin : (path, buff) ∈ range files).
    { rewrite range_visits. apply elem_of_map_to_list. apply HF. split; assumption. }
    rewrite Forall_forall in Hall. exact (Hall _ Hin).
  - split; [reflexivity |]. right.
    destruct (visited_is_content range range_visits _ _ _ _ Hfiles Hin) as [Hpath Hc].
    destruct (first_match_sound _ _ _ Hparse) as (i & ur & Hi & -> & Hm & Hearlier).
    exists path, buff, i, ur. repeat split; assumption.
Qed.

End UbuntuResults.

(** * The signatures *)

Section Signatures.

Lemma to_lower_idem c : Regexp.to_lower (Regexp.to_lower c) = Regexp.to_lower c.
Proof. destruct c as [[] [] [] [] [] [] [] []]; reflexivity. Qed.

Lemma is_word_to_lower c : Regexp.is_word (Regexp.to_lower c) = Regexp.is_word c.
Proof. destruct c as [[] [] [] [] [] [] [] []]; reflexivity. Qed.

Lemma eqb_to_lower_high c n :
  128 <= n -> n < 256 ->
  Ascii.eqb (Regexp.to_lower c) (ascii_of_nat n) = Ascii.eqb c (ascii_of_nat n).
Proof.
  intros Hlo Hhi. unfold Regexp.to_lower.
  destruct ((65 <=? nat_of_ascii c) && (nat_of_ascii c <=? 90))%nat eqn:Hup; [| reflexivity].
  apply andb_true_iff in Hup as [H1 H2]. apply Nat.leb_le in H1, H2.
  destruct (Ascii.eqb_spec (ascii_of_nat (nat_of_ascii c + 32)) (ascii_of_nat n)) as [Heq | _].
  - apply (f_equal nat_of_ascii) in Heq. rewrite !nat_ascii_embedding in Heq by lia. lia.
  - destruct (Ascii.eqb_spec c (ascii_of_nat n)) as [Heq | _]; [| reflexivity].
    apply (f_equal nat_of_ascii) in Heq. rewrite nat_ascii_embedding in Heq by lia. lia.
Qed.

Lemma boundary_lower prev s :
  Regexp.boundary (Regexp.to_lower <$> prev) (Results.lower s) = Regexp.boundary prev s.
Proof.
  unfold Regexp.boundary.
  destruct prev as [c |]; destruct s as [|d s]; cbn; rewrite ?is_word_to_lower; reflexivity.
Qed.

Lemma literal_lower w prev s :
  Regexp.literal w (Regexp.to_lower <$> prev) (Results.lower s)
  = Results.lower_result (Regexp.literal w prev s).
Proof.
  revert prev s. induction w as [|p w IH]; intros prev s; [reflexivity |].
  cbn [Regexp.literal]. destruct s as [|c s]; [reflexivity |].
  cbn [Results.lower]. rewrite to_lower_idem.
  destruct (Ascii.eqb (Regexp.to_lower c) (Regexp.to_lower p)).
  - apply (IH (Some c) s).
  - rewrite (eqb_to_lower_high c 197) by lia.
    destruct (Ascii.eqb (Regexp.to_lower p) "s" && Ascii.eqb c (ascii_of_nat 197));
      [| reflexivity].
    destruct s as [|d s]; [reflexivity |]. cbn [Results.lower].
    rewrite (eqb_to_lower_high d 191) by lia.
    destruct (Ascii.eqb d (ascii_of_nat 191)); [| reflexivity].
    apply (IH (Some d) s).
Qed.

Lemma bounded_word_lower w prev s :
  Regexp.bounded_word w (Regexp.to_lower <$> prev) (Results.lower s)
  = Results.lower_result (Regexp.bounded_word w prev s).
Proof.
  unfold Regexp.bounded_word. rewrite boundary_lower, literal_lower.
  destruct (Regexp.boundary prev s); [| reflexivity].
  destruct (Regexp.literal w prev s) as [[prev' rest] |]; [| reflexivity].
  cbn. rewrite boundary_lower. destruct (Regexp.boundary prev' rest); reflexivity.
Qed.

Lemma somewhere_lower f g prev s :
  (forall prev s, g (Regexp.to_lower <$> prev) (Results.lower s) = f prev s) ->
  Regexp.somewhere g (Regexp.to_lower <$> prev) (Results.lower s) = Regexp.somewhere f prev s.
Proof.
  intros Hfg. revert prev. induction s as [|c s IH]; intros prev.
  - cbn [Regexp.somewhere]. rewrite <- (Hfg prev EmptyString). reflexivity.
  - cbn [Regexp.somewhere]. rewrite <- (Hfg prev (String c s)), <- (IH (Some c)). reflexivity.
Qed.

Lemma Match_lower re b : Regexp.Match re (Results.lower b) = Regexp.Match re b.
Proof.
  unfold Regexp.Match. apply (somewhere_lower _ _ None).
  intros prev s. rewrite bounded_word_lower.
  destruct (Regexp.bounded_word (Regexp.keyword re) prev s) as [[prev' rest] |]; [| reflexivity].
  cbn. apply somewhere_lower. intros p t. rewrite bounded_word_lower.
  destruct (Regexp.bounded_word (Regexp.codename re) p t); reflexivity.
Qed.

(** X12. The signatures do not see the case of ASCII letters: two
    contents that are equal once their letters are put in lower case match
    the same signatures, and [parse] gives them the same distribution. *)
Theorem parse_ignores_case b b' :
  Results.lower b = Results.lower b' ->
  (forall re, Regexp.Match re b = Regexp.Match re b')
  /\ Ubuntu.parse b = Ubuntu.parse b'.
Proof.
  intros Hlower.
  assert (HM : forall re, Regexp.Match re b = Regexp.Match re b').
  { intros re. rewrite <- (Match_lower re b), <- (Match_lower re b'), Hlower. reflexivity. }
  split; [exact HM |].
  unfold Ubuntu.parse. induction Ubuntu.ubuntuRegexes as [|ur rs IH]; [reflexivity |].
  cbn [Ubuntu.first_match]. rewrite HM, IH. reflexivity.
Qed.

(** *** Words between delimiters *)

Lemma string_app_cons' (c : ascii) (s t : string) : String c s +:+ t = String c (s +:+ t).
Proof. reflexivity. Qed.

Lemma last_byte_nonempty prev s : s <> "" -> Results.last_byte prev s = Results.last_byte None s.
Proof. destruct s; [contradiction | reflexivity]. Qed.

Lemma word_before_last_byte prev s :
  s <> "" ->
  match Results.last_byte prev s with Some c => Regexp.is_word c | None => false end
  = Results.ends_word s.
Proof. intros Hs. unfold Results.ends_word. rewrite (last_byte_nonempty prev s Hs). reflexivity. Qed.

Lemma starts_word_app s t : s <> "" -> Results.starts_word (s +:+ t) = Results.starts_word s.
Proof. destruct s; [contradiction | reflexivity]. Qed.

Lemma starts_word_nonempty s : Results.starts_word s = true -> s <> "".
Proof. destruct s; [discriminate | discriminate]. Qed.

Lemma literal_self w prev rest :
  Regexp.literal w prev (w +:+ rest) = Some (Results.last_byte prev w, rest).
Proof.
  revert prev. induction w as [|p w IH]; intros prev; [reflexivity |].
  rewrite string_app_cons'. cbn [Regexp.literal Results.last_byte].
  rewrite Ascii.eqb_refl. apply IH.
Qed.

Lemma somewhere_skip f prev s t :
  f (Results.last_byte prev s) t = true -> Regexp.somewhere f prev (s +:+ t) = true.
Proof.
  revert prev. induction s as [|c s IH]; intros prev Hf.
  - change ("" +:+ t) with t. destruct t; cbn [Regexp.somewhere]; cbn in Hf; rewrite Hf; reflexivity.
  - rewrite string_app_cons'. cbn [Regexp.somewhere].
    rewrite (IH (Some c) Hf). apply orb_true_r.
Qed.

(** A word between delimiters is matched where it stands. *)
Lemma bounded_word_self w prev rest :
  match prev with Some c => Regexp.is_word c | None => false end = false ->
  Results.starts_word w = true ->
  Results.ends_word w = true ->
  Results.starts_word rest = false ->
  Regexp.bounded_word w prev (w +:+ rest) = Some (Results.last_byte prev w, rest).
Proof.
  intros Hprev Hstart Hend Hrest. pose proof (starts_word_nonempty w Hstart) as Hw.
  unfold Regexp.bounded_word, Regexp.boundary. rewrite literal_self.
  fold (Results.starts_word (w +:+ rest)). fold (Results.starts_word rest).
  rewrite starts_word_app by exact Hw.
  rewrite Hprev, Hstart, Hrest, (word_before_last_byte prev w Hw), Hend. reflexivity.
Qed.

(** X13. A content in which the keyword of a signature stands before its
    codename, each delimited by bytes that are no word characters (or by
    an end of the content), with at least one byte between the two,
    matches the signature; line breaks between the words do not matter. *)
Theorem Match_delimited_words re pre mid post :
  Results.starts_word (Regexp.keyword re) = true ->
  Results.ends_word (Regexp.keyword re) = true ->
  Results.starts_word (Regexp.codename re) = true ->
  Results.ends_word (Regexp.codename re) = true ->
  Results.ends_word pre = false ->
  mid <> "" ->
  Results.starts_word mid = false ->
  Results.ends_word mid = false ->
  Results.starts_word post = false ->
  Regexp.Match re
    (pre +:+ Regexp.keyword re +:+ mid +:+ Regexp.codename re +:+ post) = true.
Proof.
  intros Hks Hke Hcs Hce Hpre Hmid Hms Hme Hpost.
  unfold Regexp.Match. apply somewhere_skip.
  rewrite bounded_word_self; try assumption.
  - apply somewhere_skip. apply bool_decide_eq_true.
    rewrite bounded_word_self; try assumption; [eauto |].
    rewrite (word_before_last_byte _ mid Hmid). exact Hme.
  - rewrite starts_word_app by exact Hmid. exact Hms.
Qed.

End Signatures.

(** * The order of the members *)

Section MemberOrder.

Import Go.

Lemma score_Permutation es es' p : es ≡ₚ es' -> Dpkg.score es p = Dpkg.score es' p.
Proof.
  unfold Dpkg.score. induction 1 as [| e es es' _ IH | e1 e2 es | es1 es2 es3 _ IH1 _ IH2].
  - reflexivity.
  - cbn [List.filter]. destruct (_ && _); cbn [length]; rewrite IH; reflexivity.
  - cbn [List.filter].
    destruct (Dpkg.counted e1 && _); destruct (Dpkg.counted e2 && _); reflexivity.
  - rewrite IH1. exact IH2.
Qed.

(** X18. The locate pass does not depend on the order of the members: two
    archives with the same members in different orders give the same map
    of scores, and so the same confirmed directories. *)
Theorem find_databases_Permutation es es' :
  es ≡ₚ es' -> Dpkg.find_databases es = Dpkg.find_databases es'.
Proof.
  intros Hperm. apply map_eq. intros p. apply option_eq. intros n.
  rewrite !find_databases_score, (score_Permutation es es' p Hperm). reflexivity.
Qed.

Lemma search_status_first fn es fin db :
  Dpkg.search_status fn es fin = (Some db, None)
  <-> exists before after,
        es = before ++ db :: after
        /\ Clean (Tar.Name (Tar.Hdr db)) = fn
        /\ Forall (fun e => Clean (Tar.Name (Tar.Hdr e)) <> fn) before.
Proof.
  induction es as [|e es IH]; cbn [Dpkg.search_status].
  - split; [discriminate |]. intros (before & after & Hes & _).
    destruct before; discriminate.
  - destruct (String.eqb_spec (Clean (Tar.Name (Tar.Hdr e))) fn) as [Heq | Hne].
    + split.
      * intros [= <-]. exists [], es. split; [reflexivity |]. split; [exact Heq | constructor].
      * intros (before & after & Hes & Hdb & Hbefore).
        destruct before as [|e0 before]; cbn in Hes.
        -- injection Hes as -> _. reflexivity.
        -- injection Hes as -> _. apply Forall_cons in Hbefore as [Hne _]. contradiction.
    + rewrite IH. split.
      * intros (before & after & -> & Hdb & Hbefore).
        exists (e :: before), after. split; [reflexivity |]. split; [exact Hdb |].
        constructor; assumption.
      * intros (before & after & Hes & Hdb & Hbefore).
        destruct before as [|e0 before]; cbn in Hes.
        -- injection Hes as -> _. contradiction.
        -- injection Hes as -> ->. apply Forall_cons in Hbefore as [_ Hbefore].
           exists before, after. split; [reflexivity |]. split; assumption.
Qed.

(** X19. The extract pass reads the database from the first member of the
    archive whose cleaned name is the path of the status file, whatever
    the type of that member and whatever members of the same name follow. *)
Theorem status_member_is_first a p db :
  Dpkg.status_member a p = Some db
  <-> exists before after,
        Tar.Entries a = before ++ db :: after
        /\ Clean (Tar.Name (Tar.Hdr db)) = Join [p; "status"]
        /\ Forall (fun e => Clean (Tar.Name (Tar.Hdr e)) <> Join [p; "status"]) before.
Proof.
  rewrite <- (search_status_first _ _ (Tar.End a)). unfold Dpkg.status_member.
  destruct (search_status_ends (Join [p; "status"]) (Tar.Entries a) (Tar.End a))
    as [[-> _] | (db' & -> & _)]; cbn [fst]; split; congruence.
Qed.

End MemberOrder.

(** * From the locate pass to the extract pass *)

Section Paths.

Import Go.

Lemma Clean_render path :
  path <> "" ->
  Clean path
  = Results.render (Results.rooted path)
      (fold_left (clean_elem (Results.rooted path)) (split_sep path) ([], 0)).
Proof.
  destruct path as [|c path]; [contradiction |]. intros _.
  unfold Clean, Results.render, Results.rooted.
  destruct (fold_left _ _ _) as [out dotdot]. reflexivity.
Qed.

Lemma split_sep_nonempty s : split_sep s <> [].
Proof.
  destruct s as [|c s]; [discriminate |]. cbn [split_sep].
  destruct (Ascii.eqb c Separator); [discriminate |].
  destruct (split_sep s); discriminate.
Qed.

Lemma split_sep_app x y :
  split_sep (x +:+ String Separator y) = split_sep x ++ split_sep y.
Proof.
  induction x as [|c x IH]; rewrite ?string_app_cons, ?string_app_nil; cbn [split_sep].
  - rewrite Ascii.eqb_refl. reflexivity.
  - destruct (Ascii.eqb c Separator); rewrite IH; [reflexivity |].
    pose proof (split_sep_nonempty x) as Hx.
    destruct (split_sep x); [contradiction | reflexivity].
Qed.

Lemma split_sep_absent e :
  Separator ∉ list_ascii_of_string e -> split_sep e = [e].
Proof.
  induction e as [|c e IH]; cbn [split_sep list_ascii_of_string]; [reflexivity |].
  intros Hnotin. apply not_elem_of_cons in Hnotin as [Hne Hnotin].
  destruct (Ascii.eqb_spec c Separator) as [Heq | _];
    [exfalso; apply Hne; exact (eq_sym Heq) |].
  rewrite (IH Hnotin). reflexivity.
Qed.

Lemma split_sep_elements s :
  Forall (fun e => Separator ∉ list_ascii_of_string e) (split_sep s).
Proof.
  induction s as [|c s IH]; cbn [split_sep].
  - constructor; [| constructor]. cbn. apply not_elem_of_nil.
  - destruct (Ascii.eqb_spec c Separator) as [_ | Hne].
    + constructor; [cbn; apply not_elem_of_nil | exact IH].
    + destruct (split_sep s) as [|e es].
      * constructor; [| constructor]. cbn. intros Hin.
        apply list_elem_of_singleton in Hin. congruence.
      * apply Forall_cons in IH as [He Hes]. constructor; [| exact Hes].
        cbn [list_ascii_of_string]. intros Hin.
        apply elem_of_cons in Hin as [Heq | Hin]; [congruence | contradiction].
Qed.

Lemma join_sep_cons e e2 comps :
  join_sep (e :: e2 :: comps) = e +:+ String Separator (join_sep (e2 :: comps)).
Proof. reflexivity. Qed.

Lemma split_sep_join comps :
  comps <> [] ->
  Forall (fun e => Separator ∉ list_ascii_of_string e) comps ->
  split_sep (join_sep comps) = comps.
Proof.
  induction comps as [|e comps IH]; [contradiction |]. intros _ Hall.
  apply Forall_cons in Hall as [He Hall].
  destruct comps as [|e2 comps].
  - apply split_sep_absent, He.
  - rewrite join_sep_cons, split_sep_app, (split_sep_absent e He), IH
      by (discriminate || exact Hall).
    reflexivity.
Qed.

Lemma clean_elem_real r out dotdot e :
  Results.real_elem e -> clean_elem r (out, dotdot) e = (e :: out, dotdot).
Proof.
  intros (H1 & H2 & H3 & _). unfold clean_elem.
  destruct (String.eqb_spec e "") as [? | _]; [contradiction |].
  destruct (String.eqb_spec e ".") as [? | _]; [contradiction |].
  destruct (String.eqb_spec e "..") as [? | _]; [contradiction |].
  reflexivity.
Qed.

Lemma fold_real r l acc dotdot :
  Forall Results.real_elem l ->
  fold_left (clean_elem r) l (acc, dotdot) = (rev l ++ acc, dotdot).
Proof.
  intros Hall. revert acc. induction Hall as [|e l He _ IH]; intros acc; [reflexivity |].
  cbn [fold_left rev]. rewrite (clean_elem_real r acc dotdot e He), IH, <- app_assoc.
  reflexivity.
Qed.

Lemma fold_dotdots n k :
  fold_left (clean_elem false) (repeat ".." n) ([], k) = ([], k + n).
Proof.
  revert k. induction n as [|n IH]; intros k; cbn [repeat fold_left].
  - rewrite Nat.add_0_r. reflexivity.
  - change (clean_elem false ([], k) "..") with (@nil string, S k).
    rewrite IH. f_equal. lia.
Qed.

Lemma clean_elem_state r st e :
  Separator ∉ list_ascii_of_string e ->
  Results.clean_state r st -> Results.clean_state r (clean_elem r st e).
Proof.
  intros He [Hr Hout]. destruct st as [out dotdot]. cbn [fst snd] in *.
  unfold clean_elem.
  destruct (String.eqb_spec e "") as [? | H1]; cbn [orb]; [split; assumption |].
  destruct (String.eqb_spec e ".") as [? | H2]; [split; assumption |].
  destruct (String.eqb_spec e "..") as [? | H3].
  - destruct out as [|e' out].
    + destruct r; [split; assumption |]. split; [discriminate | constructor].
    + apply Forall_cons in Hout as [_ Hout]. split; assumption.
  - split; [exact Hr |]. constructor; [| exact Hout]. repeat split; assumption.
Qed.

Lemma fold_clean_state r l st :
  Forall (fun e => Separator ∉ list_ascii_of_string e) l ->
  Results.clean_state r st -> Results.clean_state r (fold_left (clean_elem r) l st).
Proof.
  intros Hall. revert st. induction Hall as [|e l He _ IH]; intros st Hst; [exact Hst |].
  cbn [fold_left]. apply IH, clean_elem_state; assumption.
Qed.

Lemma real_elem_absent e : Results.real_elem e -> Separator ∉ list_ascii_of_string e.
Proof. intros (_ & _ & _ & H). exact H. Qed.

Lemma kept_elements r out dotdot :
  Results.clean_state r (out, dotdot) ->
  Forall (fun e => e <> "" /\ Separator ∉ list_ascii_of_string e)
         (repeat ".." dotdot ++ rev out).
Proof.
  intros [_ Hout]. cbn [fst] in Hout. apply Forall_app. split.
  - apply Forall_forall. intros e He. apply list_elem_of_In, repeat_spec in He. subst e.
    split; [discriminate |]. apply (bool_decide_unpack _). vm_compute. exact I.
  - apply Forall_rev. apply (Forall_impl _ _ _ Hout).
    intros e (H1 & _ & _ & H4). split; assumption.
Qed.

Lemma join_sep_head e comps :
  e <> "" -> Results.rooted (join_sep (e :: comps)) = Results.rooted e
             /\ join_sep (e :: comps) <> "".
Proof.
  intros He. destruct e as [|c e]; [contradiction |].
  destruct comps; cbn [join_sep]; rewrite ?string_app_cons; split; (reflexivity || discriminate).
Qed.

Lemma rooted_absent e :
  Separator ∉ list_ascii_of_string e -> Results.rooted e = false.
Proof.
  destruct e as [|c e]; [reflexivity |]. cbn [list_ascii_of_string Results.rooted].
  intros Hnotin. apply not_elem_of_cons in Hnotin as [Hne _].
  destruct (Ascii.eqb_spec c Separator) as [Heq | _]; [| reflexivity].
  exfalso. apply Hne. exact (eq_sym Heq).
Qed.

(** Scanning the path written for a state leads back to the state. *)
Lemma fold_render r st :
  Results.clean_state r st ->
  fold_left (clean_elem r) (split_sep (Results.render r st)) ([], 0) = st
  /\ Results.rooted (Results.render r st) = r
  /\ Results.render r st <> "".
Proof.
  destruct st as [out dotdot]. intros Hst.
  pose proof (kept_elements r out dotdot Hst) as Hkept.
  destruct Hst as [Hr Hout]. cbn [fst snd] in *. unfold Results.render. cbn [fst snd].
  assert (Hfold : forall k, fold_left (clean_elem r) (rev out) ([], k) = (out, k)).
  { intros k. rewrite fold_real by (apply Forall_rev, Hout).
    rewrite rev_involutive, app_nil_r. reflexivity. }
  assert (Habsent : Forall (fun e => Separator ∉ list_ascii_of_string e)
                           (repeat ".." dotdot ++ rev out))
    by (apply (Forall_impl _ _ _ Hkept); intros e [_ He]; exact He).
  destruct r.
  - rewrite (Hr eq_refl) in *. cbn [repeat app] in *.
    split; [| split; [reflexivity | discriminate]].
    cbn [split_sep]. rewrite Ascii.eqb_refl. cbn [fold_left].
    change (clean_elem true ([], 0) "") with (@nil string, 0).
    destruct (rev out) as [|e comps] eqn:Hrev.
    + apply (f_equal (@rev string)) in Hrev. rewrite rev_involutive in Hrev.
      subst out. reflexivity.
    + rewrite split_sep_join by (discriminate || exact Habsent).
      apply Hfold.
  - destruct (repeat ".." dotdot ++ rev out) as [|e comps] eqn:Hcomps.
    + apply app_eq_nil in Hcomps as [Hdd Hrev].
      apply (f_equal (@rev string)) in Hrev. rewrite rev_involutive in Hrev. subst out.
      destruct dotdot; [| discriminate]. cbn.
      split; [reflexivity | split; [reflexivity | discriminate]].
    + apply Forall_cons in Hkept as [[He Hesep] _].
      destruct (join_sep_head e comps He) as [Hroot Hne].
      destruct (String.eqb_spec (join_sep (e :: comps)) "") as [? | _]; [contradiction |].
      split; [| split; [rewrite Hroot; apply rooted_absent, Hesep | exact Hne]].
      rewrite split_sep_join by (discriminate || exact Habsent).
      rewrite <- Hcomps, fold_left_app, (fold_dotdots dotdot 0). apply Hfold.
Qed.

Lemma rooted_app s t : s <> "" -> Results.rooted (s +:+ t) = Results.rooted s.
Proof. destruct s; [contradiction | reflexivity]. Qed.

Lemma upto_last_sep_absent x :
  Separator ∉ list_ascii_of_string x -> upto_last_sep x = "".
Proof.
  induction x as [|c x IH]; cbn [upto_last_sep list_ascii_of_string]; [reflexivity |].
  intros Hnotin. apply not_elem_of_cons in Hnotin as [Hne Hnotin].
  rewrite (IH Hnotin).
  destruct (Ascii.eqb_spec c Separator) as [Heq | _]; [| reflexivity].
  exfalso. apply Hne. exact (eq_sym Heq).
Qed.

Lemma upto_last_sep_app d x :
  Separator ∉ list_ascii_of_string x ->
  upto_last_sep (d +:+ String Separator x) = d +:+ String Separator "".
Proof.
  intros Hx. induction d as [|c d IH]; rewrite ?string_app_cons, ?string_app_nil;
    cbn [upto_last_sep].
  - rewrite (upto_last_sep_absent x Hx), Ascii.eqb_refl. reflexivity.
  - rewrite IH. destruct (d +:+ String Separator "") eqn:Hd; [| reflexivity].
    destruct d; discriminate.
Qed.

Lemma after_last_sep_absent x :
  Separator ∉ list_ascii_of_string x -> after_last_sep x = x.
Proof.
  destruct x as [|c x]; [reflexivity |]. cbn [after_last_sep list_ascii_of_string].
  intros Hnotin. apply not_elem_of_cons in Hnotin as [Hne Hnotin].
  rewrite (existsb_sep_absent x Hnotin).
  destruct (Ascii.eqb_spec c Separator) as [Heq | _]; [| reflexivity].
  exfalso. apply Hne. exact (eq_sym Heq).
Qed.

Lemma real_elem_path d base :
  Results.real_elem base ->
  Clean (d +:+ String Separator base)
  = Join [Dir (d +:+ String Separator base); base].
Proof.
  intros Hbase. pose proof (real_elem_absent base Hbase) as Hsep.
  set (D := d +:+ String Separator "").
  set (r := Results.rooted D).
  set (st := fold_left (clean_elem r) (split_sep d) ([], 0)).
  assert (HD : D <> "") by (unfold D; destruct d; discriminate).
  assert (Hname : d +:+ String Separator base = D +:+ base).
  { unfold D. rewrite string_app_assoc. reflexivity. }
  assert (Hst : Results.clean_state r st).
  { apply fold_clean_state; [apply split_sep_elements |]. split; [reflexivity | constructor]. }
  assert (HcleanD : Clean D = Results.render r st).
  { rewrite (Clean_render D HD). fold r. unfold D at 1. rewrite split_sep_app.
    rewrite fold_left_app. cbn [split_sep fold_left]. fold st.
    destruct st as [out dotdot]. reflexivity. }
  destruct (fold_render r st Hst) as (Hback & Hroot & Hne).
  unfold Dir. rewrite (upto_last_sep_app d base Hsep). fold D. rewrite HcleanD.
  cbn [Join]. destruct (String.eqb_spec (Results.render r st) "") as [? | _]; [contradiction |].
  cbn [join_sep].
  rewrite (Clean_render (Results.render r st +:+ String Separator base))
    by (destruct (Results.render r st); [contradiction | discriminate]).
  rewrite (rooted_app _ _ Hne), Hroot, split_sep_app, (split_sep_absent base Hsep).
  rewrite fold_left_app, Hback.
  assert (Hrooted : Results.rooted (d +:+ String Separator base) = r)
    by (rewrite Hname; apply (rooted_app D base HD)).
  rewrite (Clean_render (d +:+ String Separator base)) by (destruct d; discriminate).
  rewrite Hrooted, split_sep_app, (split_sep_absent base Hsep), fold_left_app.
  reflexivity.
Qed.

Lemma real_elem_alone base :
  Results.real_elem base -> Clean base = Join [Dir base; base] /\ Base base = base.
Proof.
  intros Hbase. pose proof (real_elem_absent base Hbase) as Hsep.
  destruct Hbase as (H1 & H2 & H3 & _).
  assert (Hreal : Results.real_elem base) by (repeat split; assumption).
  assert (Hclean : Clean base = base).
  { rewrite (Clean_render base H1), (rooted_absent base Hsep), (split_sep_absent base Hsep).
    cbn [fold_left]. rewrite (clean_elem_real false [] 0 base Hreal).
    unfold Results.render. cbn.
    destruct (String.eqb_spec base "") as [? | _]; [contradiction | reflexivity]. }
  split.
  - unfold Dir. rewrite (upto_last_sep_absent base Hsep).
    change (Clean "") with ".". cbn [Join String.eqb Ascii.eqb Bool.eqb]. cbn [join_sep].
    rewrite Hclean.
    rewrite (Clean_render ("." +:+ String Separator base)) by discriminate.
    rewrite split_sep_app, (split_sep_absent base Hsep).
    change (Results.rooted ("." +:+ String Separator base)) with false.
    change (split_sep ".") with ["."]. cbn [app fold_left].
    change (clean_elem false ([], 0) ".") with (@nil string, 0).
    rewrite (clean_elem_real false [] 0 base Hreal).
    unfold Results.render. cbn.
    destruct (String.eqb_spec base "") as [? | _]; [contradiction | reflexivity].
  - unfold Base. destruct base as [|c base]; [contradiction |].
    rewrite strip_trailing_sep_nonempty by (discriminate || exact Hsep).
    rewrite (after_last_sep_absent _ Hsep). reflexivity.
Qed.

(** X14. For a member name whose last element is an ordinary name (not
    empty, ".", or ".."), with or without a directory before it, cleaning
    the name gives the same path as joining its directory and its base
    name: the path the extract pass looks for is the cleaned name of the
    member the locate pass counted. *)
Theorem Clean_is_Join_Dir_Base name base :
  Results.real_elem base ->
  name = base \/ (exists d, name = d +:+ String Separator base) ->
  Base name = base /\ Clean name = Join [Dir name; Base name].
Proof.
  intros Hbase [-> | [d ->]].
  - destruct (real_elem_alone base Hbase) as [Hclean HBase].
    rewrite HBase. split; [reflexivity | exact Hclean].
  - destruct Hbase as (H1 & H2 & H3 & H4).
    rewrite (Base_app d base H1 H4). split; [reflexivity |].
    apply real_elem_path. repeat split; assumption.
Qed.

Lemma status_is_real : Results.real_elem "status".
Proof.
  repeat split; try discriminate. apply (bool_decide_unpack _). vm_compute. exact I.
Qed.

Lemma search_status_finds fn es fin e :
  e ∈ es -> Clean (Tar.Name (Tar.Hdr e)) = fn ->
  exists db, Dpkg.search_status fn es fin = (Some db, None).
Proof.
  intros Hin Hname. induction es as [|e0 es IH]; [inversion Hin |].
  cbn [Dpkg.search_status].
  destruct (String.eqb_spec (Clean (Tar.Name (Tar.Hdr e0))) fn) as [_ | Hne]; [eauto |].
  apply elem_of_cons in Hin as [-> | Hin]; [contradiction | exact (IH Hin)].
Qed.

(** X15. A member named "status", alone or after a directory, that the
    locate pass sees is found again by the extract pass of its directory:
    the search for the status file of [Dir name] ends at a member, not at
    the end of the archive. *)
Theorem status_member_of_located a e :
  e ∈ Tar.Entries a ->
  Tar.Name (Tar.Hdr e) = "status"
  \/ (exists d, Tar.Name (Tar.Hdr e) = d +:+ String Separator "status") ->
  Base (Tar.Name (Tar.Hdr e)) = "status"
  /\ exists db,
       Dpkg.status_member a (Dir (Tar.Name (Tar.Hdr e))) = Some db
       /\ Clean (Tar.Name (Tar.Hdr db)) = Clean (Tar.Name (Tar.Hdr e)).
Proof.
  intros Hin Hname.
  destruct (Clean_is_Join_Dir_Base _ "status" status_is_real Hname) as [HBase HClean].
  split; [exact HBase |]. rewrite HBase in HClean.
  destruct (search_status_finds _ _ (Tar.End a) e Hin HClean) as [db Hdb].
  exists db. unfold Dpkg.status_member. rewrite Hdb. split; [reflexivity |].
  destruct (search_status_ends (Join [Dir (Tar.Name (Tar.Hdr e)); "status"])
              (Tar.Entries a) (Tar.End a)) as [[Hs _] | (db' & Hs & _ & Hn)];
    rewrite Hs in Hdb; [discriminate |].
  injection Hdb as <-. rewrite Hn, HClean. reflexivity.
Qed.

End Paths.

Section LocatedDatabases.

Import Go.

Variable Parse : string -> list GoDpkg.ParsedPackage.
Variable md5_Sum : string -> string.
Variable range : gmap string nat -> list (string * nat).
Hypothesis range_visits : forall m, range m ≡ₚ map_to_list m.


End LocatedDatabases.

(** * The further properties on the example layers *)

Section FurtherInstances.

Import Go.

Abbreviation example_Scan :=
  (Dpkg.Scan Examples.parse_example Examples.digest_example Examples.in_order).

Abbreviation example_reader es :=
  {| Claircore.Stream := {| Tar.Entries := es; Tar.End := EOF |};
     Claircore.Seek := Some (0%Z, None) |}.

Lemma Scan_no_database_witness :
  example_Scan (Results.layer_without_seek Results.status_only) = Dpkg.Return None None.
Proof.
  apply (Scan_no_database
           Examples.parse_example Examples.digest_example Examples.in_order in_order_visits
           (Results.layer_without_seek Results.status_only)
           {| Claircore.Stream := {| Tar.Entries := Results.status_only; Tar.End := EOF |};
              Claircore.Seek := Some (0%Z, Some (errorString "seek: illegal seek")) |}
           (0%Z, Some (errorString "seek: illegal seek")));
    try reflexivity.
  intros q Hq.
  assert (Hloc : Dpkg.find_databases Results.status_only = {["var/lib/dpkg" := 1]})
    by (vm_compute; reflexivity).
  cbn [Claircore.Stream Tar.Entries] in Hq. rewrite Hloc in Hq.
  apply lookup_singleton_Some in Hq as [_ Hq]. discriminate.
Defined.


Lemma Scan_packages_well_formed_witness :
  Forall Results.well_formed
    [Claircore.mkPackage "foo" "1.0" Claircore.BINARY
       (Some (Claircore.mkPackage "bar" "1.0" Claircore.SOURCE None
                "var/lib/dpkg/status" "" ""))
       "var/lib/dpkg/status" "" "amd64"].
Proof.
  apply (Scan_packages_well_formed
           Examples.parse_example Examples.digest_example Examples.in_order in_order_visits
           Examples.foo_from_bar_layer _ None).
  vm_compute. reflexivity.
Defined.

Lemma Scan_packages_come_from_stanzas_witness :
  exists rd,
    Claircore.Reader Examples.foo_layer = inr rd
    /\ Forall (fun pk =>
                 exists p db st,
                   Dpkg.find_databases (Tar.Entries (Claircore.Stream rd)) !! p = Some 2
                   /\ Dpkg.status_member (Claircore.Stream rd) p = Some db
                   /\ st ∈ Examples.parse_example (Tar.Data db)
                   /\ Dpkg.same_but_hint pk (Dpkg.to_package (Join [p; "status"]) st)
                   /\ Claircore.PackageDB pk = Clean (Tar.Name (Tar.Hdr db)))
              [Claircore.mkPackage "foo" "1.0" Claircore.BINARY None "var/lib/dpkg/status"
                 (EncodeToString Examples.md5sums_foo) "amd64"].
Proof.
  apply (Scan_packages_come_from_stanzas
           Examples.parse_example Examples.digest_example Examples.in_order in_order_visits
           Examples.foo_layer _ None).
  vm_compute. reflexivity.
Defined.


Lemma foo_has_no_separator : Separator ∉ list_ascii_of_string "foo".
Proof. apply (bool_decide_unpack _). vm_compute. exact I. Qed.

Lemma foo_has_no_colon : ":"%char ∉ list_ascii_of_string "foo".
Proof. apply (bool_decide_unpack _). vm_compute. exact I. Qed.

Lemma amd64_has_no_separator : Separator ∉ list_ascii_of_string "amd64".
Proof. apply (bool_decide_unpack _). vm_compute. exact I. Qed.

Lemma metadata_name_of_package_witness :
  Dpkg.metadata_name "var/lib/dpkg/info/foo.md5sums" = "foo"
  /\ Dpkg.metadata_name "var/lib/dpkg/info/foo:amd64.md5sums" = "foo".
Proof.
  exact (metadata_name_of_package "var/lib/dpkg/info" "foo" "amd64"
           foo_has_no_separator foo_has_no_colon amd64_has_no_separator).
Defined.

Lemma add_hint_of_package_witness :
  Dpkg.add_hint Examples.digest_example "var/lib/dpkg/info/" {["foo" := 0]}
    [Dpkg.to_package "var/lib/dpkg/status" Examples.foo] Results.foo_metadata
  = [Claircore.set_RepositoryHint (EncodeToString Examples.md5sums_foo)
       (Dpkg.to_package "var/lib/dpkg/status" Examples.foo)].
Proof.
  exact (add_hint_of_package Examples.digest_example "var/lib/dpkg/info" "foo" "amd64"
           {["foo" := 0]} [Dpkg.to_package "var/lib/dpkg/status" Examples.foo]
           Results.foo_metadata 0
           foo_has_no_separator foo_has_no_colon amd64_has_no_separator
           (or_intror eq_refl) (lookup_singleton_eq _ _) eq_refl).
Defined.

Lemma Scan_result_is_sound_witness :
  exists path buff i ur,
    Ubuntu.release ur = Ubuntu.Bionic
    /\ path ∈ [Ubuntu.osReleasePath; Ubuntu.lsbReleasePath]
    /\ Claircore.content Examples.bionic_layer path = Some buff
    /\ Ubuntu.ubuntuRegexes !! i = Some ur
    /\ Regexp.Match (Ubuntu.regexp ur) buff = true.
Proof.
  destruct (Scan_result_is_sound Examples.in_order in_order_visits Examples.bionic_layer
              [Ubuntu.releaseToDist Ubuntu.Bionic] None)
    as [_ [[Hnil _] | (path & buff & i & ur & Hd & Hp & Hc & Hi & Hm & _)]].
  - vm_compute. reflexivity.
  - discriminate.
  - exists path, buff, i, ur. injection Hd as Hd. repeat split; auto.
Defined.

Lemma parse_ignores_case_witness :
  (forall re, Regexp.Match re "DISTRIB_ID=UBUNTU; Codename=BIONIC"
              = Regexp.Match re "distrib_id=ubuntu; codename=bionic")
  /\ Ubuntu.parse "DISTRIB_ID=UBUNTU; Codename=BIONIC"
     = Ubuntu.parse "distrib_id=ubuntu; codename=bionic".
Proof.
  apply (parse_ignores_case "DISTRIB_ID=UBUNTU; Codename=BIONIC"
           "distrib_id=ubuntu; codename=bionic").
  vm_compute. reflexivity.
Defined.

Lemma Match_delimited_words_witness :
  Regexp.Match (Ubuntu.regexp (Ubuntu.signature Ubuntu.Bionic "bionic"))
    ("NAME=" +:+ "ubuntu" +:+ "
VERSION_CODENAME=" +:+ "bionic" +:+ "
") = true.
Proof.
  apply (Match_delimited_words (Ubuntu.regexp (Ubuntu.signature Ubuntu.Bionic "bionic"))
           "NAME=" "
VERSION_CODENAME=" "
"); (reflexivity || discriminate).
Defined.

Lemma Clean_is_Join_Dir_Base_witness :
  Base "./var/lib/dpkg/status" = "status"
  /\ Clean "./var/lib/dpkg/status"
     = Join [Dir "./var/lib/dpkg/status"; Base "./var/lib/dpkg/status"].
Proof.
  apply (Clean_is_Join_Dir_Base "./var/lib/dpkg/status" "status" status_is_real).
  right. exists "./var/lib/dpkg". reflexivity.
Defined.

Lemma status_member_of_located_witness :
  Base "./var/lib/dpkg/status" = "status"
  /\ exists db,
       Dpkg.status_member {| Tar.Entries := Examples.dot_slash_members; Tar.End := EOF |}
         (Dir "./var/lib/dpkg/status") = Some db
       /\ Clean (Tar.Name (Tar.Hdr db)) = Clean "./var/lib/dpkg/status".
Proof.
  apply (status_member_of_located
           {| Tar.Entries := Examples.dot_slash_members; Tar.End := EOF |}
           (Examples.file "./var/lib/dpkg/status" Examples.status_foo)).
  - left.
  - right. exists "./var/lib/dpkg". reflexivity.
Defined.



Lemma Scan_hints_are_digests_witness :
  exists rd,
    Claircore.Reader Examples.foo_layer = inr rd
    /\ Forall (fun pk =>
                 Claircore.RepositoryHint pk = ""
                 \/ exists e,
                      e ∈ Tar.Entries (Claircore.Stream rd)
                      /\ HasSuffix (Tar.Name (Tar.Hdr e)) Dpkg.suffix = true
                      /\ Tar.DataErr e = None
                      /\ Claircore.RepositoryHint pk
                         = EncodeToString (Examples.digest_example (Tar.Data e))
                      /\ Results.hex_text
                           (String.length (Examples.digest_example (Tar.Data e)))
                           (Claircore.RepositoryHint pk))
              [Claircore.mkPackage "foo" "1.0" Claircore.BINARY None "var/lib/dpkg/status"
                 (EncodeToString Examples.md5sums_foo) "amd64"].
Proof.
  apply (Scan_hints_are_digests
           Examples.parse_example Examples.digest_example Examples.in_order in_order_visits
           Examples.foo_layer _ None).
  vm_compute. reflexivity.
Defined.

Lemma find_databases_Permutation_witness :
  Dpkg.find_databases (reverse Results.two_databases)
  = Dpkg.find_databases Results.two_databases.
Proof.
  apply (find_databases_Permutation (reverse Results.two_databases) Results.two_databases).
  apply reverse_Permutation.
Defined.

End FurtherInstances.
